(** * queue-run: dispatch and middleware engine

    A shallow embedding of the request/job dispatch code of queue-run
    (queue jobs, WebSocket messages, the Lambda/HTTP adapter, URL
    templates and the function loader) together with the properties
    that its specification states about it.

    Conventions of the embedding:
    - JavaScript strings and Buffers are byte strings ([string]); a text
      is represented by its UTF-8 encoding, so [Buffer.from(text)] and
      [buffer.toString("utf-8")] are the identity;
    - JavaScript numbers are integers ([Z]); times are milliseconds;
    - [async] functions run on a virtual clock: a user supplied callback
      is described by how long it takes to settle and how it settles. *)

From stdpp Require Import base strings gmap list pretty.
From Stdlib Require Import ZArith Lia Ascii.


Open Scope Z_scope.

Set Warnings "-register-all,-clear-no-such-hyp".

(** ** JavaScript values *)

Module JS.

(** A fetch [Response]: status, headers and an optional body. *)
Record Response := mkResponse {
  status : Z;
  headers : list (string * string);
  body : option string
}.

Inductive Value :=
| VUndefined
| VNull
| VBool (b : bool)
| VNumber (n : Z)
| VString (s : string)
| VBuffer (bytes : string)
| VArray (items : list Value)
| VObject (fields : list (string * Value))
| VFunction (source : string)
| VError (name message : string)
| VResponse (r : Response).

(** [typeof v] *)
Definition typeof (v : Value) : string :=
  match v with
  | VUndefined => "undefined"
  | VBool _ => "boolean"
  | VNumber _ => "number"
  | VString _ => "string"
  | VFunction _ => "function"
  | VNull | VBuffer _ | VArray _ | VObject _ | VError _ _ | VResponse _ =>
      "object"
  end.

(** ToBoolean: the values that [if], [!] and [||] treat as true. *)
Definition truthy (v : Value) : bool :=
  match v with
  | VUndefined | VNull => false
  | VBool b => b
  | VNumber n => negb (Z.eqb n 0)
  | VString s => negb (String.eqb s "")
  | _ => true
  end.

(** [a || b] *)
Definition or_else (a b : Value) : Value := if truthy a then a else b.

(** [error instanceof Error], [v instanceof Response] *)
Definition instanceof_Error (v : Value) : bool :=
  match v with VError _ _ => true | _ => false end.

Definition join (sep : string) (l : list string) : string :=
  match l with
  | [] => ""
  | x :: r => fold_left (fun acc y => acc +:+ sep +:+ y) r x
  end.

(** [String(v)] *)
Fixpoint String_ (v : Value) : string :=
  match v with
  | VUndefined => "undefined"
  | VNull => "null"
  | VBool true => "true"
  | VBool false => "false"
  | VNumber n => pretty n
  | VString s => s
  | VBuffer b => b
  | VArray items =>
      join "," (map (fun x => match x with
                             | VUndefined | VNull => ""
                             | _ => String_ x
                             end) items)
  | VObject _ => "[object Object]"
  | VFunction src => src
  | VError name message =>
      if String.eqb name "" then message
      else if String.eqb message "" then name
      else name +:+ ": " +:+ message
  | VResponse _ => "[object Response]"
  end.

(** [new Error(message)] *)
Definition Error (message : string) : Value := VError "Error" message.

(** [error instanceof Error ? error : new Error(String(error))] *)
Definition asError (error : Value) : Value :=
  if instanceof_Error error then error else Error (String_ error).

(** [object.name] for the properties of an object; a property that is
    not there reads as [undefined]. *)
Fixpoint get (fields : list (string * Value)) (name : string) : Value :=
  match fields with
  | [] => VUndefined
  | (k, v) :: r => if String.eqb k name then v else get r name
  end.

(** [a ?? b] *)
Definition nullish (a b : Value) : Value :=
  match a with
  | VUndefined | VNull => b
  | _ => a
  end.

(** The double quote, as a text. *)
Definition dquote : string := String (ascii_of_nat 34) "".

(** The result of a synchronous function that may throw. *)
Inductive Result (A : Type) :=
| Ok (a : A)
| Throw (error : Value).
Arguments Ok {A} a.
Arguments Throw {A} error.

End JS.

Export JS (Value(..), Response, mkResponse, Result(..)).

(** ** Function loader (builder/src/loadFunction.ts) *)

Module Builder.

Record FunctionExports := mkExports { config : Value; handler : Value }.

(** What [loadModule({ filename, cache })] does: it fills [cache] with
    the modules it went through and either returns the exports of the
    module or throws. *)
Inductive Loaded :=
| LoadedExports (exports : gmap string Value) (cache : list string)
| LoadThrew (error : Value) (cache : list string).

(** [exports.name]: a missing property reads as [undefined]. *)
Definition get (exports : gmap string Value) (name : string) : Value :=
  default VUndefined (exports !! name).

Section LoadAndVerify.
(** [path.resolve(process.cwd(), ·)] and the module loader, which
    depend on the file system. *)
Variable resolve : string -> string.
Variable loadModule : string -> Loaded.

(** [loadAndVerify({ filename, paths })]: the result together with
    the new content of the set [paths], which the [finally] block
    replaces by the keys of the cache. *)
Definition loadAndVerify (filename : string) (paths : gset string)
  : Result FunctionExports * gset string :=
  let full := resolve filename in
  match loadModule full with
  | LoadThrew error cache => (Throw error, list_to_set cache)
  | LoadedExports exports cache =>
      let handler := JS.or_else (get exports "handler") (get exports "default") in
      if negb (String.eqb (JS.typeof handler) "function") then
        (Throw (JS.Error ("Expected " +:+ filename +:+ " to export a function (default)")),
         list_to_set cache)
      else
        let config := JS.or_else (get exports "config") (VObject []) in
        if negb (String.eqb (JS.typeof config) "object") then
          (Throw (JS.Error ("Expected " +:+ filename +:+ " to export an object (config)")),
           list_to_set cache)
        else
          (Ok {| config := config; handler := handler |}, list_to_set cache)
  end.
End LoadAndVerify.

(** What [loadFunction] keeps when it watches: the object [loaded],
    the set [paths], the files the watcher watches and the lines on
    the error console. *)
Record Watcher := mkWatcher {
  loaded : FunctionExports;
  paths : gset string;
  watched : gset string;
  errors : list (list Value)
}.

Section LoadFunction.
Variable resolve : string -> string.
(** [error.stack] *)
Variable stack : Value -> Value.

(** [loadFunction(filename, watch)] up to its [return]: the first load,
    which throws when the module does not verify, and the watcher on
    the files that the load went through. (The function returns the
    variable [exports] of its own module, not [loaded].) *)
Definition loadFunction (loadModule : string -> Loaded) (filename : string)
    (watch : bool) : Result Watcher :=
  match loadAndVerify resolve loadModule filename ∅ with
  | (Ok exports, paths) =>
      Ok (mkWatcher exports paths (if watch then paths else ∅) [])
  | (Throw error, _) => Throw error
  end.

(** The listener of the [change] event of the watcher; [loadModule]
    reads the files as they are when the event comes. *)
Definition on_change (filename : string) (watcher : Watcher)
    (loadModule : string -> Loaded) : Watcher :=
  match loadAndVerify resolve loadModule filename (paths watcher) with
  | (Ok exports, paths) =>
      mkWatcher exports paths (watched watcher ∪ paths) (errors watcher)
  | (Throw error, paths) =>
      mkWatcher (loaded watcher) paths (watched watcher ∪ paths)
        (errors watcher ++ [[VString "Error loading %s"; VString filename; stack error]])
  end.
End LoadFunction.

End Builder.

(** ** URL templates (queue-run/src/http/url.ts) *)

Module Url.

(** The regular expression of [replaceBracket] is
    [/(^|\/)\[(.+?)\](\/|\?|#|$)/g]; the functions below are its
    backtracking matcher, one per piece of the expression. *)

(** [.] matches any character but a line terminator: LF, CR, U+2028 and
    U+2029 (the last two are E2 80 A8 and E2 80 A9 in UTF-8). *)
Definition is_dot (s : string) : bool :=
  negb (String.prefix (String (ascii_of_nat 10) "") s
        || String.prefix (String (ascii_of_nat 13) "") s
        || String.prefix (String (ascii_of_nat 226) (String (ascii_of_nat 128) (String (ascii_of_nat 168) ""))) s
        || String.prefix (String (ascii_of_nat 226) (String (ascii_of_nat 128) (String (ascii_of_nat 169) ""))) s).

(** [(\/|\?|#|$)]: returns the text of the group and the rest. *)
Definition match_after (s : string) : option (string * string) :=
  match s with
  | "" => Some ("", "")
  | String c r =>
      if (Ascii.eqb c "/" || Ascii.eqb c "?" || Ascii.eqb c "#")%bool
      then Some (String c "", r) else None
  end.

(** [\](\/|\?|#|$)] *)
Definition match_close (s : string) : option (string * string) :=
  match s with
  | String "]" r => match_after r
  | _ => None
  end.

(** [(.+?)\](\/|\?|#|$)]: the lazy quantifier takes one character and
    tries the rest of the expression, then one more, and so on. *)
Fixpoint match_name (s : string) : option (string * string * string) :=
  match s with
  | "" => None
  | String c r =>
      if is_dot s then
        match match_close r with
        | Some (after, rest) => Some (String c "", after, rest)
        | None =>
            match match_name r with
            | Some (name, after, rest) => Some (String c name, after, rest)
            | None => None
            end
        end
      else None
  end.

(** [\[(.+?)\](\/|\?|#|$)] *)
Definition match_bracket (s : string) : option (string * string * string) :=
  match s with
  | String "[" r => match_name r
  | _ => None
  end.

Record Match := mkMatch {
  before : string; name : string; after : string; rest : string
}.

(** The whole expression, tried at one position of the subject;
    [at_start] tells whether this position is index 0, where [^]
    matches. The alternative [^] is tried before [\/]. *)
Definition match_at (at_start : bool) (s : string) : option Match :=
  let slash :=
    match s with
    | String "/" r =>
        match match_bracket r with
        | Some (n, a, rest) => Some (mkMatch "/" n a rest)
        | None => None
        end
    | _ => None
    end in
  if at_start then
    match match_bracket s with
    | Some (n, a, rest) => Some (mkMatch "" n a rest)
    | None => slash
    end
  else slash.

(** The replacement function:
    [`${before}:${name.startsWith("...") ? name.slice(3) + "*" : name}${after}`] *)
Definition replacement (m : Match) : string :=
  before m +:+ ":" +:+
  (if String.prefix "..." (name m)
   then String.substring 3 (String.length (name m) - 3) (name m) +:+ "*"
   else name m) +:+
  after m.

(** [String.prototype.replace] with a global expression: the leftmost
    match is replaced and the search resumes where the match ended.
    A match is never empty, so [fuel] larger than the length of the
    subject is never exhausted. *)
Fixpoint replace_all (fuel : nat) (at_start : bool) (s : string) : string :=
  match fuel with
  | O => s
  | S fuel' =>
      match match_at at_start s with
      | Some m => replacement m +:+ replace_all fuel' false (rest m)
      | None =>
          match s with
          | "" => ""
          | String c r => String c (replace_all fuel' false r)
          end
      end
  end.

Definition replaceBracket (path : string) : string :=
  replace_all (S (String.length path)) true path.

End Url.

(** ** Asynchronous functions on a virtual clock *)

Module Async.

(** How a user supplied [async] callback settles: after how many
    milliseconds, and with which value or exception; or never. *)
Inductive Behaviour :=
| Resolves (after : N) (value : Value)
| Rejects (after : N) (error : Value)
| Never.

Inductive Event :=
| ConsoleError (args : list Value)
| Called (callback : string) (args : list Value).

(** The per-invocation scope installed by [withLocalStorage]. *)
Record LocalStorage := mkLocalStorage { user : Value; connection : Value }.

(** The state an invocation runs in: the clock, the pending timer of
    its abort controller (the time at which it fires), the [aborted]
    flag of the controller's signal, the current local storage and the
    events so far, each with its time. *)
Record World := mkWorld {
  now : Z;
  timer : option Z;
  aborted : bool;
  store : option LocalStorage;
  trace : list (Z * Event)
}.

Definition initial : World := mkWorld 0 None false None [].

Inductive Outcome (A : Type) :=
| Returned (a : A)
| Thrown (error : Value)
| Pending.
Arguments Returned {A} a.
Arguments Thrown {A} error.
Arguments Pending {A}.

Definition Async (A : Type) : Type := World -> Outcome A * World.

#[export] Instance Async_ret : MRet Async := fun A a w => (Returned a, w).

#[export] Instance Async_bind : MBind Async := fun A B f m w =>
  match m w with
  | (Returned a, w') => f a w'
  | (Thrown e, w') => (Thrown e, w')
  | (Pending, w') => (Pending, w')
  end.

Definition throw {A} (error : Value) : Async A := fun w => (Thrown error, w).

(** [try { body } catch (error) { handler }] *)
Definition try_catch {A} (body : Async A) (handler : Value -> Async A) : Async A :=
  fun w =>
    match body w with
    | (Thrown e, w') => handler e w'
    | r => r
    end.

(** [try { body } finally { cleanup }]: the cleanup runs however the
    body settles, and the body's outcome is kept when the cleanup
    returns. *)
Definition try_finally {A} (body : Async A) (cleanup : Async unit) : Async A :=
  fun w =>
    match body w with
    | (Pending, w') => (Pending, w')
    | (o, w') =>
        match cleanup w' with
        | (Returned _, w'') => (o, w'')
        | (Thrown e, w'') => (Thrown e, w'')
        | (Pending, w'') => (Pending, w'')
        end
    end.

(** Time passes: a timer that is due fires, and its callback
    [controller.abort()] runs before anything scheduled at that time. *)
Definition advance (dt : Z) (w : World) : World :=
  let t := now w + dt in
  match timer w with
  | Some due =>
      if due <=? t
      then mkWorld t None true (store w) (trace w)
      else mkWorld t (timer w) (aborted w) (store w) (trace w)
  | None => mkWorld t None (aborted w) (store w) (trace w)
  end.

(** Waiting for ever: a pending timer fires. *)
Definition forever (w : World) : World :=
  match timer w with
  | Some due => mkWorld due None true (store w) (trace w)
  | None => w
  end.

(** [await promise] *)
Definition await (b : Behaviour) : Async Value := fun w =>
  match b with
  | Resolves dt v => (Returned v, advance (Z.of_N dt) w)
  | Rejects dt e => (Thrown e, advance (Z.of_N dt) w)
  | Never => (Pending, forever w)
  end.

Definition log (e : Event) : Async unit := fun w =>
  (Returned tt, mkWorld (now w) (timer w) (aborted w) (store w) (trace w ++ [(now w, e)])).

(** [console.error(...args)] *)
Definition console_error (args : list Value) : Async unit := log (ConsoleError args).

(** Calling a user supplied callback and waiting for it. *)
Definition call (callback : string) (args : list Value) (b : Behaviour) : Async Value :=
  log (Called callback args) ≫= fun _ => await b.

(** [setTimeout(callback, delay)] takes a delay between 1 and 2^31-1
    milliseconds, and 1 millisecond for any delay outside of it. *)
Definition timer_delay (delay : Z) : Z :=
  if (delay <? 1) || (2147483647 <? delay) then 1 else delay.

(** [setTimeout(() => controller.abort(), delay)] *)
Definition setTimeout_abort (delay : Z) : Async unit := fun w =>
  (Returned tt, mkWorld (now w) (Some (now w + timer_delay delay)) (aborted w) (store w) (trace w)).

Definition clearTimeout : Async unit := fun w =>
  (Returned tt, mkWorld (now w) None (aborted w) (store w) (trace w)).

(** [controller.abort()] *)
Definition abort : Async unit := fun w =>
  (Returned tt, mkWorld (now w) (timer w) true (store w) (trace w)).

(** [signal.aborted] *)
Definition signal_aborted : Async bool := fun w => (Returned (aborted w), w).

(** [Promise.race([chain, new Promise((resolve) =>
    signal.addEventListener("abort", resolve))])]: when the timer fires
    before the chain settles, the race resolves at that time with no
    value from the chain, which goes on in the background; what it does
    there stays in the trace. *)
Definition race_abort {A} (chain : Async A) : Async (option A) := fun w =>
  let '(o, w') := chain w in
  let settled :=
    match o with
    | Returned a => (Returned (Some a), w')
    | Thrown e => (Thrown e, w')
    | Pending => (Pending, w')
    end in
  match timer w with
  | Some due =>
      if aborted w' && negb (aborted w)
      then (Returned None, mkWorld due None true (store w) (trace w'))
      else settled
  | None => settled
  end.

(** Modelled from the spec: [withLocalStorage(localStorage, fn)] of
    shared/index.js, which is not among the sources. The spec has the
    context scoped to one invocation: [fn] runs with [localStorage] as
    the current store, and the store that was current before is
    current again after it. *)
Definition withLocalStorage {A} (localStorage : LocalStorage) (fn : Async A) : Async A :=
  fun w =>
    let '(o, w') := fn (mkWorld (now w) (timer w) (aborted w) (Some localStorage) (trace w)) in
    (o, mkWorld (now w') (timer w') (aborted w') (store w) (trace w')).

(** Modelled from the spec: [getLocalStorage()] of shared/index.js
    gives the current store, and fails outside of any scope.
    [getLocalStorage().user = value]: *)
Definition set_user (value : Value) : Async unit := fun w =>
  match store w with
  | Some ls =>
      (Returned tt,
       mkWorld (now w) (timer w) (aborted w)
               (Some (mkLocalStorage value (connection ls))) (trace w))
  | None => (Thrown (JS.Error "Runtime not available"), w)
  end.

(** [localStorage.connection = value], for the current store. *)
Definition set_connection (value : Value) : Async unit := fun w =>
  match store w with
  | Some ls =>
      (Returned tt,
       mkWorld (now w) (timer w) (aborted w)
               (Some (mkLocalStorage (user ls) value)) (trace w))
  | None => (Thrown (JS.Error "Runtime not available"), w)
  end.

(** [await promise] for a promise of the runtime, which settles after
    some time with a result. *)
Definition await_settled {A} (settled : N * Result A) : Async A := fun w =>
  match settled with
  | (after, Ok a) => (Returned a, advance (Z.of_N after) w)
  | (after, Throw error) => (Thrown error, advance (Z.of_N after) w)
  end.

End Async.

Export Async (Behaviour(..), Outcome(..), Event(..), World, Async).

(** ** Queue jobs (queue-run/src/queue/handler.ts) *)

Module Queue.
Import Async.

(** A job's metadata, a JavaScript object; the [signal] that
    [handleQueuedJob] adds to it is the [aborted] flag of the world. *)
Definition Metadata : Type := list (string * Value).

(** The manifest's entry for a queue; the timeout is in seconds. *)
Record QueueService := mkQueueService { timeout : Z }.

(** The exports of a queue module and the middleware that goes with it. *)
Record QueueExports := mkQueueExports {
  default_ : Value -> Metadata -> Behaviour
}.

Record QueueMiddleware := mkQueueMiddleware {
  onJobStarted : option (Metadata -> Behaviour);
  onJobFinished : option (Metadata -> Behaviour);
  onError : option (Value -> Metadata -> Behaviour)
}.

Definition runWithMiddleware (metadata : Metadata) (middleware : QueueMiddleware)
    (module : QueueExports) (newLocalStorage : LocalStorage) (payload : Value)
  : Async unit :=
  withLocalStorage newLocalStorage (
    set_user (JS.nullish (JS.get metadata "user") VNull) ;;
    match onJobStarted middleware with
    | Some hook => call "onJobStarted" [VObject metadata] (hook metadata) ;; mret tt
    | None => mret tt
    end ;;
    stop ← signal_aborted;
    if stop : bool then mret tt else
    call "default" [payload; VObject metadata] (default_ module payload metadata) ;;
    stop ← signal_aborted;
    if stop : bool then mret tt else
    match onJobFinished middleware with
    | Some hook => call "onJobFinished" [VObject metadata] (hook metadata) ;; mret tt
    | None => mret tt
    end).

(** The body of the [try] block of [handleQueuedJob], for the timeout
    computed before it. *)
Definition job_try (metadata : Metadata) (middleware : QueueMiddleware)
    (module : QueueExports) (newLocalStorage : LocalStorage) (payload : Value)
    (timeout : Z) : Async bool :=
  race_abort (runWithMiddleware metadata middleware module newLocalStorage payload) ;;
  timedOut ← signal_aborted;
  if timedOut : bool then
    throw (JS.Error ("Timeout: job took longer than " +:+ pretty timeout +:+ "s to process"))
  else mret true.

(** Its [catch] block. The colours that chalk adds to the first
    argument of [console.error] are left out. *)
Definition job_catch (metadata : Metadata) (middleware : QueueMiddleware)
    (queueName : string) (error : Value) : Async bool :=
  console_error [VString ("Error in queue " +:+ JS.dquote +:+ "%s" +:+ JS.dquote +:+ " job %s:");
                 VString queueName; JS.get metadata "jobID"; error] ;;
  match onError middleware with
  | Some hook =>
      try_catch
        (call "onError" [JS.asError error; VObject metadata]
              (hook (JS.asError error) metadata) ;; mret tt)
        (fun error =>
          console_error [VString ("Error in onError handler for queue " +:+ JS.dquote +:+ "%s" +:+ JS.dquote);
                         VString queueName; error])
  | None => mret tt
  end ;;
  mret false.

Definition handleQueuedJob
    (queues : gmap string QueueService)
    (loaded : option (QueueExports * QueueMiddleware))
    (metadata : Metadata) (newLocalStorage : LocalStorage) (payload : Value)
    (queueName : string) (remainingTime : Z)
  : Async bool :=
  match queues !! queueName with
  | None => throw (JS.Error ("No handler for queue " +:+ queueName))
  | Some queue =>
  match loaded with
  | None => throw (JS.Error "Invariant failed: Could not load queue module")
  | Some (module, middleware) =>
      (* When handling FIFO messages, possible we'll run out of time. *)
      let timeout := Z.min (timeout queue * 1000) remainingTime in
      if timeout <=? 0 then mret false else
      (* Create an abort controller to allow the handler to cancel incomplete work. *)
      setTimeout_abort (timeout * 1000) ;;
      try_finally
        (try_catch
          (job_try metadata middleware module newLocalStorage payload timeout)
          (job_catch metadata middleware queueName))
        (clearTimeout ;; abort)
  end
  end.

End Queue.

(** ** JSON.stringify and base64 *)

Module Encoding.

Definition dquote : ascii := ascii_of_nat 34.
Definition backslash : ascii := ascii_of_nat 92.

Definition hex_digit (n : nat) : ascii :=
  default "0"%char (String.get n "0123456789abcdef").

(** The escape of one character in a JSON string. *)
Definition quote_char (c : ascii) : string :=
  let n := nat_of_ascii c in
  if Ascii.eqb c dquote then String backslash (String dquote "")
  else if Ascii.eqb c backslash then String backslash (String backslash "")
  else if Nat.eqb n 8 then String backslash "b"
  else if Nat.eqb n 12 then String backslash "f"
  else if Nat.eqb n 10 then String backslash "n"
  else if Nat.eqb n 13 then String backslash "r"
  else if Nat.eqb n 9 then String backslash "t"
  else if Nat.ltb n 32 then
    String backslash ("u00" +:+ String (hex_digit (n / 16)) (String (hex_digit (n mod 16)) ""))
  else String c "".

Fixpoint quote_chars (s : string) : string :=
  match s with
  | "" => ""
  | String c r => quote_char c +:+ quote_chars r
  end.

(** QuoteJSONString *)
Definition quote (s : string) : string :=
  String dquote (quote_chars s) +:+ String dquote "".

(** The text of an array or an object from the texts of its members:
    on one line without a gap, one member per line with one. *)
Definition wrap (open close gap indent : string) (partial : list string) : string :=
  match partial with
  | [] => open +:+ close
  | _ =>
      if String.eqb gap "" then open +:+ JS.join "," partial +:+ close
      else
        let inner := indent +:+ gap in
        let newline := String (ascii_of_nat 10) "" in
        open +:+ newline +:+ inner +:+
        JS.join ("," +:+ newline +:+ inner) partial +:+
        newline +:+ indent +:+ close
  end.

(** SerializeJSONProperty: [None] stands for [undefined]. An undefined
    member is [null] in an array and left out of an object. A Buffer
    serializes through its [toJSON]; an Error and a Response have no
    enumerable property of their own. *)
Fixpoint serialize (gap indent : string) (v : Value) {struct v} : option string :=
  match v with
  | VUndefined | VFunction _ => None
  | VNull => Some "null"
  | VBool true => Some "true"
  | VBool false => Some "false"
  | VNumber n => Some (pretty n)
  | VString s => Some (quote s)
  | VBuffer bytes =>
      let colon := if String.eqb gap "" then ":" else ": " in
      let data :=
        wrap "[" "]" gap (indent +:+ gap)
             (map (fun c => pretty (nat_of_ascii c)) (String.list_ascii_of_string bytes)) in
      Some (wrap "{" "}" gap indent
                 [quote "type" +:+ colon +:+ quote "Buffer";
                  quote "data" +:+ colon +:+ data])
  | VArray items =>
      Some (wrap "[" "]" gap indent
                 (map (fun x => default "null" (serialize gap (indent +:+ gap) x)) items))
  | VObject fields =>
      let colon := if String.eqb gap "" then ":" else ": " in
      Some (wrap "{" "}" gap indent
                 ((fix members (l : list (string * Value)) : list string :=
                     match l with
                     | [] => []
                     | (k, x) :: r =>
                         match serialize gap (indent +:+ gap) x with
                         | Some text => (quote k +:+ colon +:+ text) :: members r
                         | None => members r
                         end
                     end) fields))
  | VError _ _ | VResponse _ => Some "{}"
  end.

Fixpoint spaces (n : nat) : string :=
  match n with
  | O => ""
  | S k => String " " (spaces k)
  end.

(** [JSON.stringify(value, null, space)] for a number [space]: at most
    ten spaces of indentation, none below one. *)
Definition JSON_stringify (value : Value) (space : Z) : option string :=
  serialize (spaces (Z.to_nat (Z.min 10 space))) "" value.

(** The base64 alphabet and the encoding of a byte string,
    [buffer.toString("base64")]. *)
Definition base64_digit (n : nat) : ascii :=
  default "="%char
    (String.get n "ABCDEFGHIJKLMNOPQRSTUVWXYZabcdefghijklmnopqrstuvwxyz0123456789+/").

Fixpoint base64 (bytes : string) : string :=
  match bytes with
  | "" => ""
  | String a "" =>
      let a := nat_of_ascii a in
      String (base64_digit (a / 4)) (String (base64_digit (a mod 4 * 16)) "==")
  | String a (String b "") =>
      let a := nat_of_ascii a in
      let b := nat_of_ascii b in
      String (base64_digit (a / 4))
        (String (base64_digit (a mod 4 * 16 + b / 16))
           (String (base64_digit (b mod 16 * 4)) "="))
  | String a (String b (String c r)) =>
      let a := nat_of_ascii a in
      let b := nat_of_ascii b in
      let c := nat_of_ascii c in
      String (base64_digit (a / 4))
        (String (base64_digit (a mod 4 * 16 + b / 16))
           (String (base64_digit (b mod 16 * 4 + c / 64))
              (String (base64_digit (c mod 64)) (base64 r))))
  end.

(** The value of a base64 digit, of either alphabet (standard or URL
    safe). *)
Definition base64_value (c : ascii) : option nat :=
  let n := nat_of_ascii c in
  if (Nat.leb 65 n && Nat.leb n 90)%bool then Some (n - 65)%nat
  else if (Nat.leb 97 n && Nat.leb n 122)%bool then Some (n - 71)%nat
  else if (Nat.leb 48 n && Nat.leb n 57)%bool then Some (n + 4)%nat
  else if (Nat.eqb n 43 || Nat.eqb n 45)%bool then Some 62%nat
  else if (Nat.eqb n 47 || Nat.eqb n 95)%bool then Some 63%nat
  else None.

(** The digits of a base64 text up to its padding; other characters
    are skipped. *)
Fixpoint base64_digits (s : string) : list nat :=
  match s with
  | "" => []
  | String c r =>
      if Ascii.eqb c "=" then []
      else match base64_value c with
           | Some d => d :: base64_digits r
           | None => base64_digits r
           end
  end.

Fixpoint base64_bytes (digits : list nat) : string :=
  match digits with
  | a :: b :: c :: d :: r =>
      String (ascii_of_nat (a * 4 + b / 16))
        (String (ascii_of_nat (b mod 16 * 16 + c / 4))
           (String (ascii_of_nat (c mod 4 * 64 + d)) (base64_bytes r)))
  | [a; b; c] =>
      String (ascii_of_nat (a * 4 + b / 16))
        (String (ascii_of_nat (b mod 16 * 16 + c / 4)) "")
  | [a; b] => String (ascii_of_nat (a * 4 + b / 16)) ""
  | _ => ""
  end.

(** [Buffer.from(text, "base64")] *)
Definition from_base64 (text : string) : string :=
  base64_bytes (base64_digits text).

End Encoding.

(** ** Fetch requests *)

Module Fetch.

(** A fetch [Request]; what its constructor checks is not modelled.
    The names of its headers are in lower case. *)
Record Request := mkRequest {
  url : string;
  method : string;
  headers : list (string * string);
  body : option string
}.

End Fetch.

(** ** The Lambda adapter of the HTTP handler ([asFetchRequest]) *)

Module Lambda.
Import Async.
Import Fetch (Request, mkRequest).

(** The two shapes of event: the one with a [requestContext] comes
    from API Gateway, the other from the backend Lambda. *)
Inductive LambdaEvent :=
| APIGatewayProxyEvent (httpMethod domainName path : string)
    (headers : list (string * string)) (body : option string)
    (isBase64Encoded : bool)
| BackendLambdaRequest (headers : list (string * string))
    (method url : string) (body : option string).


(** A string that is not empty, the only truthy kind of body. *)
Definition has_text (body : option string) : bool :=
  match body with
  | Some s => negb (String.eqb s "")
  | None => false
  end.

Definition toFetchRequest (event : LambdaEvent) : Request :=
  match event with
  | APIGatewayProxyEvent httpMethod domainName path headers body isBase64Encoded =>
      let method := httpMethod in
      let url := "https://" +:+ domainName +:+ path in
      let body :=
        if has_text body && isBase64Encoded
        then Encoding.from_base64 <$> body
        else body in
      mkRequest url method headers body
  | BackendLambdaRequest headers method url body =>
      let hasBody := negb (String.eqb method "GET" || String.eqb method "HEAD") in
      let body :=
        if hasBody && has_text body
        then Encoding.from_base64 <$> body
        else None in
      mkRequest url method headers body
  end.




End Lambda.

(** ** WebSocket connections and messages *)

Module WebSocket.
Import Async.

(** The socket middleware; [onError] takes the error and, for a
    message, the request. *)
Record WebSocketMiddleware := mkMiddleware {
  authenticate : option (Fetch.Request -> list (string * string) -> Behaviour);
  onError : option (Value -> Value -> Behaviour);
  onMessageReceived : option (Value -> Behaviour);
  onMessageSent : option (list string -> string -> Behaviour)
}.

Record WebSocketConfig := mkConfig { type : option string }.

(** [request.headers.get(name)], for names in lower case. *)
Fixpoint headers_get (headers : list (string * string)) (name : string)
  : option string :=
  match headers with
  | [] => None
  | (k, v) :: r => if String.eqb k name then Some v else headers_get r name
  end.

(** [header.split(";")] *)
Fixpoint split_semicolon (s : string) : list string :=
  match s with
  | "" => [""]
  | String c r =>
      if Ascii.eqb c ";" then "" :: split_semicolon r
      else match split_semicolon r with
           | piece :: pieces => String c piece :: pieces
           | [] => [String c ""]
           end
  end.

Definition is_space (c : ascii) : bool :=
  let n := nat_of_ascii c in
  (Nat.eqb n 32 || (Nat.leb 9 n && Nat.leb n 13))%bool.

Fixpoint trim_start (s : string) : string :=
  match s with
  | String c r => if is_space c then trim_start r else s
  | "" => ""
  end.

Fixpoint trim_end (s : string) : string :=
  match s with
  | "" => ""
  | String c r =>
      match trim_end r with
      | "" => if is_space c then "" else String c ""
      | r' => String c r'
      end
  end.

(** [cookie.trim()], for the white space of ASCII. *)
Definition trim (s : string) : string := trim_end (trim_start s).

(** Whether the greedy group of any characters matches up to the end
    of the text: no line terminator in it. *)
Fixpoint all_dots (s : string) : bool :=
  match s with
  | "" => true
  | String _ r => Url.is_dot s && all_dots r
  end.

(** The name before the first [=] and what follows it. *)
Fixpoint split_equal (s : string) : option (string * string) :=
  match s with
  | "" => None
  | String c r =>
      if Ascii.eqb c "=" then Some ("", r)
      else match split_equal r with
           | Some (name, value) => Some (String c name, value)
           | None => None
           end
  end.

(** [cookie.match(...)?.slice(1)] for the expression that reads: from
    the start, one or more characters other than [=], then [=], then
    any characters up to the end. *)
Definition match_cookie (cookie : string) : option (string * string) :=
  match split_equal cookie with
  | Some (name, value) =>
      if negb (String.eqb name "") && all_dots value
      then Some (name, value) else None
  | None => None
  end.

(** [{ ...cookies, [key]: value }] *)
Fixpoint assign (cookies : list (string * string)) (key value : string)
  : list (string * string) :=
  match cookies with
  | [] => [(key, value)]
  | (k, v) :: r =>
      if String.eqb k key then (k, value) :: r else (k, v) :: assign r key value
  end.

(** The cookies of a request. A piece of the header that is not of the
    form [name=value] leaves [undefined] in the array, and the
    destructuring in [filter] throws on it. *)
Definition getCookies (request : Fetch.Request) : Result (list (string * string)) :=
  match headers_get (Fetch.headers request) "cookie" with
  | None => Ok []
  | Some header =>
      if String.eqb header "" then Ok []
      else
        fold_left
          (fun acc cookie =>
             match acc, match_cookie cookie with
             | Ok cookies, Some (key, value) => Ok (assign cookies key value)
             | Ok _, None => Throw (VError "TypeError" "undefined is not iterable")
             | Throw e, _ => Throw e
             end)
          (map trim (split_semicolon header)) (Ok [])
  end.






Section Messages.

(** [JSON.parse], which throws a SyntaxError on a text that is not
    JSON, the class [TimeoutError] of shared/TimeoutError.js, and
    [Number(process.env.QUEUE_RUN_INDENT) || 0]. *)
Variable JSON_parse : string -> Result Value.
Variable TimeoutError : string -> Value.
Variable QUEUE_RUN_INDENT : Z.

Definition bufferToData (data : string) (config : WebSocketConfig) : Result Value :=
  let type := default "json" (type config) in
  if String.eqb type "json" then JSON_parse data
  else if String.eqb type "text" then Ok (VString data)
  else Ok (VBuffer data).

(** [Buffer.from(text)] for the text that [JSON.stringify] returns,
    which is [undefined] for a function. *)
Definition resultToBuffer (result : Value) : Async string :=
  match result with
  | VString text => mret text
  | VBuffer bytes => mret bytes
  | _ =>
      match Encoding.JSON_stringify result QUEUE_RUN_INDENT with
      | Some text => mret text
      | None =>
          throw (VError "TypeError"
                   "The first argument must be of type string or an instance of Buffer, ArrayBuffer, or Array or an Array-like Object. Received undefined")
      end
  end.

Definition handleResponse (connection : string) (middleware : WebSocketMiddleware)
    (response : Value) : Async (option string) :=
  data ← resultToBuffer response;
  match onMessageSent middleware with
  | Some onMessageSent =>
      try_catch
        (call "onMessageSent" [VArray [VString connection]; VBuffer data]
              (onMessageSent [connection] data) ;; mret tt)
        (fun error =>
          console_error [VString "Internal processing error in onMessageSent"; error])
  | None => mret tt
  end ;;
  mret (Some data).

Definition handleOnError (error : Value) (filename : string)
    (middleware : WebSocketMiddleware) (request : Value) : Async unit :=
  match onError middleware with
  | Some onError =>
      try_catch
        (call "onError" [JS.asError error; request]
              (onError (JS.asError error) request) ;; mret tt)
        (fun error =>
          console_error [VString ("Error in onError middleware in " +:+ JS.dquote +:+ "%s" +:+ JS.dquote +:+ ":");
                         VString filename; error])
  | None => mret tt
  end.

(** The metadata of a message: connection, request id and user; its
    [signal] is the [aborted] flag of the world. *)
Definition runWithMiddleware (config : WebSocketConfig) (data : string)
    (filename : string) (handler : Value -> Behaviour)
    (metadata : list (string * Value)) (middleware : WebSocketMiddleware)
  : Async (option string) :=
  let connection := JS.String_ (JS.get metadata "connection") in
  match bufferToData data config with
  | Throw error => throw error
  | Ok parsed =>
      let request := VObject (("data", parsed) :: metadata) in
      try_catch
        (winner ← race_abort
           (match onMessageReceived middleware with
            | Some onMessageReceived =>
                call "onMessageReceived" [request] (onMessageReceived request) ;; mret tt
            | None => mret tt
            end ;;
            call "handler" [request] (handler request));
         timedOut ← signal_aborted;
         if timedOut : bool then throw (TimeoutError "Request aborted: timed out")
         else
           let response := default VUndefined winner in
           if negb (JS.truthy response) then mret None
           else handleResponse connection middleware response)
        (fun error =>
          handleOnError error filename middleware request ;;
          handleResponse connection middleware
            (VObject [("error", VString (JS.String_ error))]))
  end.

(** [userId ? { id: userId } : null] *)
Definition user_of (userId : option string) : Value :=
  match userId with
  | Some id => if String.eqb id "" then VNull else VObject [("id", VString id)]
  | None => VNull
  end.

Definition handleRoute (config : WebSocketConfig) (connection : string)
    (data : string) (filename : string) (handler : Value -> Behaviour)
    (middleware : WebSocketMiddleware) (newLocalStorage : LocalStorage)
    (requestId : string) (timeout : Z) (userId : option string)
  : Async (option string) :=
  setTimeout_abort (timeout * 1000) ;;
  let metadata :=
    [("connection", VString connection); ("requestId", VString requestId);
     ("user", user_of userId)] in
  try_finally
    (let localStorage := mkLocalStorage (user_of userId) (Async.connection newLocalStorage) in
     withLocalStorage localStorage (
       set_connection (VString connection) ;;
       runWithMiddleware config data filename handler metadata middleware))
    (clearTimeout ;; abort).

(** [onMessageSentAsync({ connections, data })], for the messages the
    server pushes on its own. *)
Definition onMessageSentAsync (middleware : WebSocketMiddleware)
    (connections : list string) (data : string) : Async unit :=
  match onMessageSent middleware with
  | None => mret tt
  | Some onMessageSent =>
      try_catch
        (call "onMessageSent" [VArray (map VString connections); VBuffer data]
              (onMessageSent connections data) ;; mret tt)
        (fun error =>
          match onError middleware with
          | Some onError =>
              try_catch
                (call "onError" [JS.asError error]
                      (onError (JS.asError error) VUndefined) ;; mret tt)
                (fun error => console_error [VString "Error in onError middleware"; error])
          | None => mret tt
          end)
  end.

(** What [findRoute(data)] resolves with: the middleware, the module
    ([config], which may be missing, and [default]) and the route
    ([filename], and [timeout] in seconds). *)
Record Found := mkFound {
  found_middleware : WebSocketMiddleware;
  module_config : option WebSocketConfig;
  module_default : Value -> Behaviour;
  route_filename : string;
  route_timeout : Z
}.

(** [Buffer.from(JSON.stringify(value))] *)
Definition stringify_buffer (value : Value) : Async string :=
  match Encoding.JSON_stringify value 0 with
  | Some text => mret text
  | None =>
      throw (VError "TypeError"
               "The first argument must be of type string or an instance of Buffer, ArrayBuffer, or Array or an Array-like Object. Received undefined")
  end.

(** [handleWebSocketMessage({ connection, data, newLocalStorage,
    requestId, userId })], given the middleware that
    [getCommonMiddleware()] loads and what [findRoute] settles with.
    The inner [catch] returns from the function: its reply is the
    left case. *)
Definition handleWebSocketMessage (common : WebSocketMiddleware)
    (findRoute : string -> N * Result Found)
    (connection : string) (data : string) (newLocalStorage : LocalStorage)
    (requestId : string) (userId : option string)
  : Async (option string) :=
  try_catch
    (found ← try_catch
       (found ← await_settled (findRoute data); mret (inr found))
       (fun error =>
         match onError common with
         | Some onError =>
             call "onError" [JS.asError error] (onError (JS.asError error) VUndefined) ;;
             mret tt
         | None => mret tt
         end ;;
         reply ← stringify_buffer (VObject [("error", VString "Not available")]);
         mret (inl (Some reply)));
     match found : option string + Found with
     | inl reply => mret reply
     | inr found =>
         handleRoute (default (mkConfig None) (module_config found)) connection data
           (route_filename found) (module_default found) (found_middleware found)
           newLocalStorage requestId (route_timeout found) userId
     end)
    (fun error =>
      console_error [VString "Internal processing error %s"; VString connection; error] ;;
      reply ← stringify_buffer (VObject [("error", VString (JS.String_ error))]);
      mret (Some reply)).

(** [handleUserOnline({ newLocalStorage, userId })], given the
    [onOnline] hook of the common middleware, if it has one. *)
Definition handleUserOnline (onOnline : option (string -> Behaviour))
    (middleware : WebSocketMiddleware) (newLocalStorage : LocalStorage)
    (userId : string) : Async Value :=
  match onOnline with
  | None => mret VNull
  | Some onOnline =>
      withLocalStorage newLocalStorage (
        try_catch
          (call "onOnline" [VString userId] (onOnline userId) ;; mret VUndefined)
          (fun error =>
            match onError middleware with
            | Some onError =>
                try_catch
                  (call "onError" [JS.asError error]
                        (onError (JS.asError error) VUndefined) ;; mret tt)
                  (fun error => console_error [error])
            | None => mret tt
            end ;;
            mret VUndefined))
  end.

(** [handleUserOffline({ newLocalStorage, userId })], given the
    [onOffline] hook of the common middleware, if it has one. *)
Definition handleUserOffline (onOffline : option (string -> Behaviour))
    (middleware : WebSocketMiddleware) (newLocalStorage : LocalStorage)
    (userId : string) : Async Value :=
  match onOffline with
  | None => mret VNull
  | Some onOffline =>
      withLocalStorage newLocalStorage (
        try_catch
          (call "onOffline" [VString userId] (onOffline userId) ;; mret VUndefined)
          (fun error =>
            match onError middleware with
            | Some onError =>
                try_catch
                  (call "onError" [JS.asError error]
                        (onError (JS.asError error) VUndefined) ;; mret tt)
                  (fun error => console_error [error])
            | None => mret tt
            end ;;
            mret VUndefined))
  end.

End Messages.

End WebSocket.

(** ** The development server (cli, dev server) *)

Module DevServer.
Import Async.

(** An incoming HTTP request: its method, its URL and the chunks of
    its body. *)
Record IncomingMessage := mkIncomingMessage {
  method : string;
  url : string;
  chunks : list string
}.

(** What [res.writeHead(statusCode, statusMessage).end()] sends. *)
Record ServerResponse := mkServerResponse {
  statusCode : Z;
  statusMessage : string
}.

(** [url.split("/")] *)
Fixpoint split_slash (s : string) : list string :=
  match s with
  | "" => [""]
  | String c r =>
      if Ascii.eqb c "/" then "" :: split_slash r
      else match split_slash r with
           | piece :: pieces => String c piece :: pieces
           | [] => [String c ""]
           end
  end.

(** [Buffer.concat(data).toString("utf-8")] *)
Definition concat (data : list string) : string :=
  fold_right String.append "" data.

Section QueueJob.

(** [JSON.parse], [crypto.randomUUID()] and [new Date()]; the manifest
    and the modules of the project. *)
Variable JSON_parse : string -> Result Value.
Variable randomUUID : string.
Variable date : Value.
Variable queues : gmap string Queue.QueueService.
Variable modules : string -> option (Queue.QueueExports * Queue.QueueMiddleware).

(** The metadata that [queueJob] gives to the job. *)
Definition job_metadata (queueName : string) (groupId : option string) : Queue.Metadata :=
  [("queueName", VString queueName);
   ("groupId", match groupId with Some id => VString id | None => VUndefined end);
   ("jobId", VString randomUUID);
   ("params", VObject []);
   ("receivedCount", VNumber 1);
   ("queuedAt", date);
   ("sequenceNumber",
    match groupId with
    | Some id => if String.eqb id "" then VUndefined else VNumber 1
    | None => VUndefined
    end);
   ("user", VNull)].

(** [queueJob(req, res, newLocalStorage)]: the result is what it sends
    on [res]. *)
Definition queueJob (req : IncomingMessage) (newLocalStorage : LocalStorage)
  : Async ServerResponse :=
  if negb (String.eqb (method req) "POST") then
    mret (mkServerResponse 405 "Method not allowed")
  else
    let text := concat (chunks req) in
    let payload :=
      match JSON_parse text with
      | Ok value => value
      | Throw _ => VString text
      end in
    let names := drop 2 (split_slash (url req)) in
    let queueName := names !! 0%nat in
    let groupId := names !! 1%nat in
    match queueName with
    | Some queueName =>
        if String.eqb queueName "" then
          throw (JS.Error "Invariant failed: Queue name is required")
        else
          try_catch
            (Queue.handleQueuedJob queues (modules queueName)
               (job_metadata queueName groupId) newLocalStorage payload queueName 30000 ;;
             mret (mkServerResponse 200 "OK"))
            (fun error =>
              console_error [VString "💥 Queue job failed!"; error] ;;
              mret (mkServerResponse 500 "Internal Server Error"))
    | None => throw (JS.Error "Invariant failed: Queue name is required")
    end.

End QueueJob.

End DevServer.

(** ** Execution contexts of concurrent invocations *)

Module Context.
Import Async.

(** What the code of an invocation does with local storage, one step
    of the cooperative scheduler each. The first four are the steps of
    [handleRoute]; an [Access] is what a handler or a hook does through
    [getLocalStorage()]. *)
Inductive Access :=
| GetUser
| SetUser (value : Value)
| GetConnection.

Inductive Op :=
| NewLocalStorage
| AssignUser (value : Value)
| WithLocalStorage
| AssignConnection (value : Value)
| Handler (access : Access).

(** A logical task: the rest of its program, its variable
    [localStorage], its current store and the values it has read. *)
Record Task := mkTask {
  program : list Op;
  variable : option nat;
  current : option nat;
  observed : list Value
}.

(** The process: the objects that [newLocalStorage] has created, and
    the tasks in flight. *)
Record Process := mkProcess {
  heap : list LocalStorage;
  tasks : gmap nat Task
}.

(** Modelled from the spec: [withLocalStorage] and [getLocalStorage]
    of shared/index.js, which are not among the sources. The spec has
    the context held by a scope mechanism equivalent to thread-local
    storage but scoped to a logical task: [withLocalStorage] sets the
    current store of the task that calls it, [getLocalStorage] reads
    the current store of the task that calls it, and fails outside of
    any scope. *)
Definition exec (fresh : LocalStorage) (op : Op) (t : Task) (heap : list LocalStorage)
  : Task * list LocalStorage :=
  let rest := tail (program t) in
  match op with
  | NewLocalStorage =>
      (mkTask rest (Some (List.length heap)) (current t) (observed t), heap ++ [fresh])
  | AssignUser value =>
      match variable t with
      | Some l =>
          (mkTask rest (variable t) (current t) (observed t),
           alter (fun ls => mkLocalStorage value (connection ls)) l heap)
      | None => (mkTask [] (variable t) (current t) (observed t), heap)
      end
  | WithLocalStorage =>
      match variable t with
      | Some l => (mkTask rest (variable t) (Some l) (observed t), heap)
      | None => (mkTask [] (variable t) (current t) (observed t), heap)
      end
  | AssignConnection value =>
      match variable t with
      | Some l =>
          (mkTask rest (variable t) (current t) (observed t),
           alter (fun ls => mkLocalStorage (user ls) value) l heap)
      | None => (mkTask [] (variable t) (current t) (observed t), heap)
      end
  | Handler access =>
      match current t with
      | Some l =>
          match access with
          | GetUser =>
              (mkTask rest (variable t) (current t)
                      (observed t ++ [default VUndefined (user <$> heap !! l)]), heap)
          | SetUser value =>
              (mkTask rest (variable t) (current t) (observed t),
               alter (fun ls => mkLocalStorage value (connection ls)) l heap)
          | GetConnection =>
              (mkTask rest (variable t) (current t)
                      (observed t ++ [default VUndefined (connection <$> heap !! l)]), heap)
          end
      | None => (mkTask [] (variable t) (current t) (observed t), heap)
      end
  end.

(** One step of task [i]. *)
Definition step (fresh : LocalStorage) (p : Process) (i : nat) : Process :=
  match tasks p !! i with
  | Some t =>
      match program t with
      | op :: _ =>
          let '(t', heap') := exec fresh op t (heap p) in
          mkProcess heap' (<[i := t']> (tasks p))
      | [] => p
      end
  | None => p
  end.

(** A schedule names the task that runs at each step. *)
Definition run (fresh : LocalStorage) (schedule : list nat) (p : Process) : Process :=
  fold_left (step fresh) schedule p.

(** The steps of [handleRoute] on local storage, followed by those of
    the middleware and the handler it runs. *)
Definition handleRoute_program (userId : option string) (connection : string)
    (handler : list Access) : list Op :=
  [NewLocalStorage; AssignUser (WebSocket.user_of userId); WithLocalStorage;
   AssignConnection (VString connection)] ++ map Handler handler.

Definition spawn (program : list Op) : Task := mkTask program None None [].

(** What task [i] has read so far. *)
Definition observations (p : Process) (i : nat) : list Value :=
  default [] (observed <$> tasks p !! i).

End Context.

(** * Properties *)

(** Unfolds the operations of the [Async] monad. *)
Ltac run_async :=
  unfold Async.try_catch, Async.try_finally, Async.call, Async.await, Async.log,
    Async.console_error, Async.throw,
    Async.signal_aborted, Async.setTimeout_abort, Async.clearTimeout,
    Async.abort, Async.withLocalStorage, Async.set_user, Async.set_connection,
    Async.race_abort, mbind, Async.Async_bind, mret, Async.Async_ret in *;
  cbn beta iota zeta in *.

(** ** The embedding on small inputs *)

Example typeof_null : JS.typeof VNull = "object".
Proof. reflexivity. Qed.

Example String_of_array :
  JS.String_ (VArray [VNumber 1; VNull; VArray [VString "x"; VNumber (-2)]]) = "1,,x,-2".
Proof. reflexivity. Qed.

Example String_of_error : JS.String_ (JS.Error "boom") = "Error: boom".
Proof. reflexivity. Qed.

Example stringify_array :
  Encoding.JSON_stringify (VArray [VNumber 1; VUndefined; VBool true; VArray []]) 0
  = Some "[1,null,true,[]]".
Proof. reflexivity. Qed.

Example stringify_function : Encoding.JSON_stringify (VFunction "() => 1") 0 = None.
Proof. reflexivity. Qed.

Example base64_of_text :
  Encoding.base64 "Man is" = "TWFuIGlz" /\ Encoding.base64 "a" = "YQ=="
  /\ Encoding.base64 "ab" = "YWI=".
Proof. repeat split. Qed.

Example from_base64_of_text :
  Encoding.from_base64 "TWFuIGlz" = "Man is" /\ Encoding.from_base64 "YQ==" = "a".
Proof. repeat split. Qed.

Example timer_delay_clamped :
  Async.timer_delay 0 = 1 /\ Async.timer_delay 5000 = 5000
  /\ Async.timer_delay 2147483648 = 1.
Proof. repeat split. Qed.

Example cookies_of_header :
  WebSocket.getCookies
    (Fetch.mkRequest "http://localhost:8000/" "GET" [("cookie", "a=1; b=2; a=3")] None)
  = Ok [("a", "3"); ("b", "2")].
Proof. reflexivity. Qed.

Example cookies_of_trailing_semicolon :
  WebSocket.getCookies
    (Fetch.mkRequest "http://localhost:8000/" "GET" [("cookie", "a=1;")] None)
  = Throw (VError "TypeError" "undefined is not iterable").
Proof. reflexivity. Qed.

Example replaceBracket_catch_all :
  Url.replaceBracket "/files/[...path]?download" = "/files/:path*?download".
Proof. reflexivity. Qed.

Example request_of_event :
  Lambda.toFetchRequest
    (Lambda.BackendLambdaRequest [] "POST" "https://example.com/bookmarks" (Some "eyJpZCI6MX0="))
  = Fetch.mkRequest "https://example.com/bookmarks" "POST" []
      (Some (String "{" (String (ascii_of_nat 34) ("id" +:+ String (ascii_of_nat 34) ":1}")))).
Proof. reflexivity. Qed.

(** ** The function loader *)

Section LoadAndVerifySpec.

Variable resolve : string -> string.
Variable loadModule : string -> Builder.Loaded.

Lemma typeof_function (v : Value) :
  String.eqb (JS.typeof v) "function" = true <-> exists source, v = VFunction source.
Proof.
  split.
  - destruct v; simpl; try discriminate. intros _. by eexists.
  - intros [source ->]. reflexivity.
Qed.

Lemma typeof_eqb (v : Value) (name : string) :
  String.eqb (JS.typeof v) name = true <-> JS.typeof v = name.
Proof. apply String.eqb_eq. Qed.

(** C9, as the code has it. Once the module is loaded, loading fails
    exactly when [exports.handler || exports.default] is not a function,
    or the [config] export is truthy and its [typeof] is not "object".
    When loading succeeds the handler is that function, and the config
    is the [config] export when it is truthy and the empty object when
    it is missing or falsy ([null], [0], [false], the empty string). *)
Theorem loadAndVerify_checks (filename : string) (paths : gset string)
    (exports : gmap string Value) (cache : list string) :
  loadModule (resolve filename) = Builder.LoadedExports exports cache ->
  let handler :=
    JS.or_else (Builder.get exports "handler") (Builder.get exports "default") in
  let config := Builder.get exports "config" in
  let result := fst (Builder.loadAndVerify resolve loadModule filename paths) in
  ((exists error, result = Throw error) <->
     JS.typeof handler <> "function" \/
     (JS.truthy config = true /\ JS.typeof config <> "object"))
  /\ (forall loaded, result = Ok loaded ->
        Builder.handler loaded = handler /\
        JS.typeof (Builder.handler loaded) = "function" /\
        JS.typeof (Builder.config loaded) = "object" /\
        Builder.config loaded = (if JS.truthy config then config else VObject []))
  /\ (exports !! "config" = None ->
      JS.typeof handler = "function" ->
      result = Ok (Builder.mkExports (VObject []) handler)).
Proof.
  intros Hload handler config result.
  subst result. unfold Builder.loadAndVerify. rewrite Hload.
  fold handler. fold config.
  destruct (String.eqb (JS.typeof handler) "function") eqn:Hh; simpl.
  - apply typeof_eqb in Hh.
    unfold JS.or_else.
    destruct (JS.truthy config) eqn:Hc; simpl.
    + destruct (String.eqb (JS.typeof config) "object") eqn:Ho; simpl.
      * apply typeof_eqb in Ho. split; [|split].
        -- split; [intros [e He]; discriminate|].
           intros [H|[_ H]]; contradiction.
        -- intros loaded [= <-]. simpl. done.
        -- intros Hnone. unfold config, Builder.get in Hc.
           rewrite Hnone in Hc. discriminate.
      * assert (JS.typeof config <> "object") as Hne.
        { intros E. apply typeof_eqb in E. congruence. }
        split; [|split].
        -- split; [intros _; right; done|intros _; by eexists].
        -- intros loaded [=].
        -- intros Hnone. unfold config, Builder.get in Hc.
           rewrite Hnone in Hc. discriminate.
    + split; [|split].
      * split; [intros [e He]; discriminate|].
        intros [H|[H _]]; [contradiction|discriminate].
      * intros loaded [= <-]. simpl. done.
      * done.
  - assert (JS.typeof handler <> "function") as Hne.
    { intros E. apply typeof_eqb in E. congruence. }
    split; [|split].
    + split; [intros _; left; done|intros _; by eexists].
    + intros loaded [=].
    + intros _ E. contradiction.
Qed.

End LoadAndVerifySpec.

(** A module that exports a function and nothing else. *)
Definition module_with_default : gmap string Value :=
  {[ "default" := VFunction "async function handler() {}" ]}.

Lemma loadAndVerify_checks_witness :
  fst (Builder.loadAndVerify id (fun _ => Builder.LoadedExports module_with_default [])
         "api/index.js" ∅)
  = Ok (Builder.mkExports (VObject []) (VFunction "async function handler() {}")).
Proof.
  apply (loadAndVerify_checks id (fun _ => Builder.LoadedExports module_with_default [])
           "api/index.js" ∅ module_with_default [] eq_refl); reflexivity.
Defined.

(** A module whose [config] export is the number 0, and one whose
    default export is a function but that also exports a [handler]
    that is a string. *)
Definition module_with_falsy_config : gmap string Value :=
  {[ "default" := VFunction "async function handler() {}"; "config" := VNumber 0 ]}.

Definition module_with_handler_text : gmap string Value :=
  {[ "default" := VFunction "async function handler() {}";
     "handler" := VString "index.handler";
     "config" := VObject [("timeout", VNumber 30)] ]}.

(** C9 as stated fails on both: a config that is not an object loads
    (the falsy 0 is replaced by the empty object), and a module whose
    default export is a function and whose config is an object fails
    to load (its [handler] export comes first). *)
Lemma loadAndVerify_counterexample :
  (JS.typeof (Builder.get module_with_falsy_config "config") = "number" /\
   fst (Builder.loadAndVerify id
          (fun _ => Builder.LoadedExports module_with_falsy_config []) "api/index.js" ∅)
   = Ok (Builder.mkExports (VObject []) (VFunction "async function handler() {}")))
  /\
  (JS.typeof (Builder.get module_with_handler_text "default") = "function" /\
   JS.typeof (Builder.get module_with_handler_text "config") = "object" /\
   fst (Builder.loadAndVerify id
          (fun _ => Builder.LoadedExports module_with_handler_text []) "api/index.js" ∅)
   = Throw (JS.Error "Expected api/index.js to export a function (default)")).
Proof. repeat split; reflexivity. Qed.

(** ** URL templates *)

Lemma match_after_shorter (s after rest : string) :
  Url.match_after s = Some (after, rest) ->
  (String.length rest <= String.length s)%nat.
Proof.
  destruct s as [|c r]; simpl.
  - intros [= _ <-]. simpl. lia.
  - destruct (_ || _); [|discriminate]. intros [= _ <-]. lia.
Qed.

Lemma match_close_shorter (s after rest : string) :
  Url.match_close s = Some (after, rest) ->
  (String.length rest < String.length s)%nat.
Proof.
  unfold Url.match_close. destruct s as [|c r]; [discriminate|].
  destruct (Ascii.eqb_spec c "]") as [->|Hc].
  - intros H. apply match_after_shorter in H. simpl. lia.
  - destruct c as [[] [] [] [] [] [] [] []]; try discriminate. by destruct Hc.
Qed.

Lemma match_name_shorter (s name after rest : string) :
  Url.match_name s = Some (name, after, rest) ->
  (String.length rest < String.length s)%nat.
Proof.
  revert name after rest. induction s as [|c r IH]; intros name after rest.
  - discriminate.
  - cbn [Url.match_name]. destruct (Url.is_dot _); [|discriminate].
    destruct (Url.match_close r) as [[a' r']|] eqn:Hclose.
    + intros [= _ _ <-]. apply match_close_shorter in Hclose. simpl. lia.
    + destruct (Url.match_name r) as [[[n' a'] r']|] eqn:Hname; [|discriminate].
      intros [= _ _ <-]. specialize (IH _ _ _ eq_refl). simpl. lia.
Qed.

Lemma match_bracket_shorter (s name after rest : string) :
  Url.match_bracket s = Some (name, after, rest) ->
  (String.length rest < String.length s)%nat.
Proof.
  unfold Url.match_bracket. destruct s as [|c r]; [discriminate|].
  destruct (Ascii.eqb_spec c "[") as [->|Hc].
  - intros H. apply match_name_shorter in H. simpl. lia.
  - destruct c as [[] [] [] [] [] [] [] []]; try discriminate. by destruct Hc.
Qed.

(** A match is never empty. *)
Lemma match_at_shorter (at_start : bool) (s : string) (m : Url.Match) :
  Url.match_at at_start s = Some m ->
  (String.length (Url.rest m) < String.length s)%nat.
Proof.
  unfold Url.match_at.
  assert (forall m,
    match s with
    | String "/" r =>
        match Url.match_bracket r with
        | Some (n, a, rest) => Some (Url.mkMatch "/" n a rest)
        | None => None
        end
    | _ => None
    end = Some m -> (String.length (Url.rest m) < String.length s)%nat) as Hslash.
  { clear m. intros m. destruct s as [|c r]; [discriminate|].
    destruct (Ascii.eqb_spec c "/") as [->|Hc].
    - destruct (Url.match_bracket r) as [[[n a] rest]|] eqn:Hb; [|discriminate].
      intros [= <-]. apply match_bracket_shorter in Hb. simpl. lia.
    - destruct c as [[] [] [] [] [] [] [] []]; try discriminate. by destruct Hc. }
  destruct at_start; [|apply Hslash].
  destruct (Url.match_bracket s) as [[[n a] rest]|] eqn:Hb; [|apply Hslash].
  intros [= <-]. apply match_bracket_shorter in Hb. simpl. lia.
Qed.

(** The fuel of [replace_all] is never exhausted: any amount above the
    length of the subject gives the same text. *)
Lemma replace_all_fuel (fuel1 fuel2 : nat) (at_start : bool) (s : string) :
  (String.length s < fuel1)%nat -> (String.length s < fuel2)%nat ->
  Url.replace_all fuel1 at_start s = Url.replace_all fuel2 at_start s.
Proof.
  revert fuel2 at_start s.
  induction fuel1 as [|fuel1 IH]; intros fuel2 at_start s H1 H2; [lia|].
  destruct fuel2 as [|fuel2]; [lia|].
  cbn [Url.replace_all].
  destruct (Url.match_at at_start s) as [m|] eqn:Hm.
  - apply match_at_shorter in Hm. f_equal. apply IH; lia.
  - destruct s as [|c r]; [done|]. f_equal. simpl in *. apply IH; lia.
Qed.

(** C8 fails on the code: of two bracket segments that follow each
    other only the first becomes a parameter, because the match of the
    first takes the [/] that the match of the second needs before it.
    Segments that are apart are both replaced. *)
Theorem replaceBracket_consecutive_segments :
  Url.replaceBracket "/[a]/[b]" = "/:a/[b]"
  /\ Url.replaceBracket "/projects/[project]/[...rest]" = "/projects/:project/[...rest]"
  /\ Url.replaceBracket "/[a]/x/[b]" = "/:a/x/:b"
  /\ Url.replaceBracket "/bookmarks/[id]" = "/bookmarks/:id"
  /\ Url.replaceBracket "/files/[...path]" = "/files/:path*".
Proof. repeat split; reflexivity. Qed.

Lemma append_cons (c : ascii) (s t : string) :
  String c s +:+ t = String c (s +:+ t).
Proof. reflexivity. Qed.

Lemma append_assoc (s t u : string) : (s +:+ t) +:+ u = s +:+ (t +:+ u).
Proof.
  induction s as [|c s IH]; [reflexivity|].
  rewrite !append_cons. by rewrite IH.
Qed.

(** A character of a plain segment name: not a closing bracket, and
    not the start of a line terminator. *)
Definition plain_char (c : ascii) : bool :=
  negb (Ascii.eqb c "]" || Nat.eqb (nat_of_ascii c) 10 || Nat.eqb (nat_of_ascii c) 13
        || Nat.eqb (nat_of_ascii c) 226).

Fixpoint plain (name : string) : bool :=
  match name with
  | "" => true
  | String c r => plain_char c && plain r
  end.

Lemma plain_char_is_dot (c : ascii) (r : string) :
  plain_char c = true -> Url.is_dot (String c r) = true.
Proof.
  unfold plain_char, Url.is_dot. intros H.
  destruct c as [[] [] [] [] [] [] [] []]; try discriminate H; reflexivity.
Qed.

Lemma plain_char_not_close (c : ascii) (r : string) :
  plain_char c = true -> Url.match_close (String c r) = None.
Proof.
  unfold plain_char, Url.match_close. intros H.
  destruct c as [[] [] [] [] [] [] [] []]; try discriminate H; reflexivity.
Qed.

(** The name of a bracket segment that a [/] follows is matched whole. *)
Lemma match_name_plain (c : ascii) (name tail : string) :
  plain (String c name) = true ->
  Url.match_name (String c name +:+ String "]" (String "/" tail))
  = Some (String c name, "/", tail).
Proof.
  revert c. induction name as [|d name IH]; intros c Hplain.
  - simpl in Hplain. apply andb_prop in Hplain as [Hc _].
    change (String c "" +:+ String "]" (String "/" tail))
      with (String c (String "]" (String "/" tail))).
    cbn [Url.match_name]. rewrite (plain_char_is_dot c _ Hc). reflexivity.
  - cbn [plain] in Hplain. apply andb_prop in Hplain as [Hc Hrest].
    change (String c (String d name) +:+ String "]" (String "/" tail))
      with (String c (String d name +:+ String "]" (String "/" tail))).
    cbn [Url.match_name]. rewrite (plain_char_is_dot c _ Hc).
    change (String d name +:+ String "]" (String "/" tail))
      with (String d (name +:+ String "]" (String "/" tail))) at 1.
    apply andb_prop in Hrest as Hd. destruct Hd as [Hd _].
    rewrite (plain_char_not_close d _ Hd).
    change (String d (name +:+ String "]" (String "/" tail)))
      with (String d name +:+ String "]" (String "/" tail)).
    rewrite (IH d Hrest). reflexivity.
Qed.

Lemma replace_all_match (fuel : nat) (at_start : bool) (s : string) (m : Url.Match) :
  Url.match_at at_start s = Some m ->
  Url.replace_all (S fuel) at_start s
  = Url.replacement m +:+ Url.replace_all fuel false (Url.rest m).
Proof. intros H. cbn [Url.replace_all]. rewrite H. reflexivity. Qed.

(** No match starts at a bracket inside the subject: the expression
    wants a [/] there. *)
Lemma replace_all_bracket (fuel : nat) (tail : string) :
  Url.replace_all (S fuel) false (String "[" tail)
  = String "[" (Url.replace_all fuel false tail).
Proof. reflexivity. Qed.

(** Whatever the names, the bracket segment that comes right after
    another one is left as it is: its opening bracket is still there in
    the result. *)
Lemma replaceBracket_second_segment_kept (c : ascii) (name tail : string) :
  plain (String c name) = true ->
  exists out,
    Url.replaceBracket (String "/" (String "[" (String c name +:+ String "]" (String "/" (String "[" tail)))))
    = String "/" (String ":"
        ((if String.prefix "..." (String c name)
          then String.substring 3 (String.length (String c name) - 3) (String c name) +:+ "*"
          else String c name) +:+ String "/" (String "[" out))).
Proof.
  intros Hplain.
  unfold Url.replaceBracket.
  set (s := String "/" (String "[" (String c name +:+ String "]" (String "/" (String "[" tail))))).
  assert (Url.match_at true s
          = Some (Url.mkMatch "/" (String c name) "/" (String "[" tail))) as Hm.
  { unfold s, Url.match_at, Url.match_bracket.
    rewrite (match_name_plain c name (String "[" tail) Hplain). reflexivity. }
  rewrite (replace_all_match _ _ _ _ Hm).
  assert (String.length s = S (S (String.length (String c name +:+ String "]" (String "/" (String "[" tail))))))
    as -> by reflexivity.
  cbn [Url.rest]. rewrite replace_all_bracket.
  eexists. unfold Url.replacement. cbn [Url.before Url.name Url.after].
  change ("/" +:+ ":" +:+ ?x) with (String "/" (String ":" x)).
  rewrite !append_cons. f_equal. f_equal. rewrite append_assoc. reflexivity.
Qed.

(** ** The Lambda adapter *)

Section AsFetchRequestSpec.
Import Async Lambda.

Variable event : LambdaEvent.
Variable handler : Fetch.Request -> Behaviour.





End AsFetchRequestSpec.






(** ** The [Async] monad *)

Section AsyncLaws.
Import Async.

Lemma advance_trace (dt : Z) (w : World) : trace (advance dt w) = trace w.
Proof.
  unfold advance. destruct (timer w); [destruct (_ <=? _)|]; reflexivity.
Qed.

Context {A : Type}.

Lemma setTimeout_then (delay : Z) (k : Async A) (w : World) :
  (setTimeout_abort delay ;; k) w
  = k (mkWorld (now w) (Some (now w + timer_delay delay)) (aborted w) (store w) (trace w)).
Proof. reflexivity. Qed.


Lemma set_connection_then (value : Value) (k : Async A) (t : Z) (tm : option Z)
    (ab : bool) (ls : LocalStorage) (tr : list (Z * Event)) :
  (set_connection value ;; k) (mkWorld t tm ab (Some ls) tr)
  = k (mkWorld t tm ab (Some (mkLocalStorage (user ls) value)) tr).
Proof. reflexivity. Qed.


Lemma finally_cleans (body : Async A) (w w' : World) (o : Outcome A) :
  try_finally body (clearTimeout ;; abort) w = (o, w') ->
  o <> Pending ->
  timer w' = None /\ aborted w' = true.
Proof.
  unfold try_finally. destruct (body w) as [[a|e|] w1]; cbn.
  - intros [= <- <-] _. done.
  - intros [= <- <-] _. done.
  - intros [= <- <-] H. by destruct H.
Qed.

Lemma finally_returns (body : Async A) (w w1 : World) (o : Outcome A) :
  body w = (o, w1) ->
  o <> Pending ->
  try_finally body (clearTimeout ;; abort) w
  = (o, mkWorld (now w1) None true (store w1) (trace w1)).
Proof.
  unfold try_finally. intros -> H. destruct o; try reflexivity. by destruct H.
Qed.

End AsyncLaws.

(** A callback of that name was invoked. *)
Definition invoked (callback : string) (events : list (Z * Event)) : Prop :=
  exists time args, (time, Called callback args) ∈ events.

(** Splits on the comparisons of the clock with the timer. *)
Ltac leb_cases :=
  repeat match goal with
         | |- context [?a <=? ?b] => destruct (Z.leb_spec a b)
         | H : context [?a <=? ?b] |- _ => destruct (Z.leb_spec a b)
         end.

(** A callback that is invoked in a trace extended by events that are
    not calls of it is invoked in the trace. *)
Ltac not_invoked :=
  intros (time & args & Hin); exists time, args;
  rewrite ?advance_trace in Hin; cbn in Hin;
  rewrite ?elem_of_app, ?elem_of_cons, ?elem_of_nil in Hin;
  naive_solver.

(** ** Queue jobs *)

Section QueueSpec.
Import Async Queue.

Variable metadata : Metadata.
Variable middleware : QueueMiddleware.
Variable module : QueueExports.
Variable newLocalStorage : LocalStorage.
Variable payload : Value.

(** What a hook does with this job; a hook that is not there takes no
    time. *)
Definition stage (hook : option (Metadata -> Behaviour)) : Behaviour :=
  match hook with
  | Some hook => hook metadata
  | None => Resolves 0 VUndefined
  end.

(** The job completes within [delay] milliseconds: [onJobStarted], the
    handler and [onJobFinished] resolve one after the other, in less
    than [delay] in all. *)
Definition completes_within (delay : Z) : Prop :=
  exists d1 v1 d2 v2 d3 v3,
    stage (onJobStarted middleware) = Resolves d1 v1 /\
    default_ module payload metadata = Resolves d2 v2 /\
    stage (onJobFinished middleware) = Resolves d3 v3 /\
    Z.of_N d1 + Z.of_N d2 + Z.of_N d3 < delay.

(** The job fails within [delay] milliseconds: one of the three
    rejects before the timer, those before it having resolved. *)
Definition fails_within (delay : Z) (error : Value) : Prop :=
  (exists d1, stage (onJobStarted middleware) = Rejects d1 error /\ Z.of_N d1 < delay)
  \/ (exists d1 v1 d2,
        stage (onJobStarted middleware) = Resolves d1 v1 /\
        default_ module payload metadata = Rejects d2 error /\
        Z.of_N d1 + Z.of_N d2 < delay)
  \/ (exists d1 v1 d2 v2 d3,
        stage (onJobStarted middleware) = Resolves d1 v1 /\
        default_ module payload metadata = Resolves d2 v2 /\
        stage (onJobFinished middleware) = Rejects d3 error /\
        Z.of_N d1 + Z.of_N d2 + Z.of_N d3 < delay).

(** The chain of [runWithMiddleware] from the moment the timer is set:
    it has returned with the signal not aborted exactly when the job
    completes within the delay of the timer, and it has thrown with
    the signal not aborted exactly when the job fails within it. *)
Lemma runWithMiddleware_chain (t0 delay : Z) (st : option LocalStorage)
    (tr : list (Z * Event)) (o : Outcome unit) (w1 : World) :
  0 < delay ->
  runWithMiddleware metadata middleware module newLocalStorage payload
    (mkWorld t0 (Some (t0 + delay)) false st tr) = (o, w1) ->
  ((o = Returned tt /\ aborted w1 = false) <-> completes_within delay)
  /\ (forall error, (o = Thrown error /\ aborted w1 = false) <-> fails_within delay error).
Proof.
  intros Hdelay. unfold runWithMiddleware, completes_within, fails_within, stage.
  run_async. unfold JS.nullish, advance, forever. cbn.
  destruct (onJobStarted middleware) as [started|];
    [destruct (started metadata) as [d1 v1|d1 e1|]|]; cbn;
    leb_cases; cbn;
    destruct (default_ module payload metadata) as [d2 v2|d2 e2|]; cbn;
    leb_cases; cbn;
    (destruct (onJobFinished middleware) as [finished|];
     [destruct (finished metadata) as [d3 v3|d3 e3|]|]); cbn;
    leb_cases; cbn;
    intros [= <- <-]; cbn;
    (split; [|intros error]);
    (split;
     [ intros [Ho Hab]; try discriminate Ho; try discriminate Hab;
       try (injection Ho as <-);
       first
         [ by (eexists _, _, _, _, _, _; repeat split; [reflexivity..|lia])
         | by (left; eexists; split; [reflexivity|lia])
         | by (right; left; eexists _, _, _; repeat split; [reflexivity..|lia])
         | by (right; right; eexists _, _, _, _, _; repeat split; [reflexivity..|lia]) ]
     | first
         [ intros (? & ? & ? & ? & ? & ? & [= <- <-] & [= <- <-] & [= <- <-] & ?)
         | intros (? & ? & ? & ? & ? & ? & [=] & _)
         | intros (? & ? & ? & ? & ? & ? & _ & [=] & _)
         | intros (? & ? & ? & ? & ? & ? & _ & _ & [=] & _)
         | intros [(? & [= <- <-] & ?)|[(? & ? & ? & [= <- <-] & [= <- <-] & ?)|(? & ? & ? & ? & ? & [= <- <-] & [= <- <-] & [= <- <-] & ?)]]
         | idtac ];
       try (split; [reflexivity|reflexivity]); try lia ]).
Qed.

(** The timer always fires in the end, so the [try] block settles: it
    returns [true] when the job completes within the delay of the
    timer, and throws otherwise. *)
Lemma job_try_outcome (t0 delay timeout : Z) (st : option LocalStorage)
    (tr : list (Z * Event)) :
  0 < delay ->
  exists o w1,
    job_try metadata middleware module newLocalStorage payload timeout
      (mkWorld t0 (Some (t0 + delay)) false st tr) = (o, w1)
    /\ (o = Returned true <-> completes_within delay)
    /\ (o = Returned true \/ exists error, o = Thrown error)
    /\ (forall error, fails_within delay error -> o = Thrown error)
    /\ (o <> Returned true -> (forall error, ~ fails_within delay error) ->
        o = Thrown (JS.Error ("Timeout: job took longer than " +:+ pretty timeout +:+ "s to process"))).
Proof.
  intros Hdelay. unfold job_try.
  destruct (runWithMiddleware metadata middleware module newLocalStorage payload
              (mkWorld t0 (Some (t0 + delay)) false st tr)) as [o1 w1] eqn:Hchain.
  destruct (runWithMiddleware_chain _ _ _ _ _ _ Hdelay Hchain) as [Hcompletes Hfails].
  unfold mbind, Async_bind, race_abort, signal_aborted, throw, mret, Async_ret.
  rewrite Hchain. cbn [timer aborted negb andb].
  rewrite andb_true_r.
  destruct (aborted w1) eqn:Hab.
  - (* the timer fired first *)
    cbn. eexists _, _. split; [reflexivity|].
    split_and!.
    + split; [discriminate|]. intros Hc. apply Hcompletes in Hc as [_ [=]].
    + right. by eexists.
    + intros error Hf. apply Hfails in Hf as [_ [=]].
    + done.
  - destruct o1 as [[]|error|]; cbn; rewrite ?Hab; cbn.
    + eexists _, _. split; [reflexivity|].
      split_and!.
      * split; [|done]. intros _. by apply Hcompletes.
      * by left.
      * intros error Hf. apply Hfails in Hf as [[=] _].
      * done.
    + eexists _, _. split; [reflexivity|].
      split_and!.
      * split; [discriminate|]. intros Hc. apply Hcompletes in Hc as [[=] _].
      * right. by eexists.
      * intros error' Hf. apply Hfails in Hf as [[= ->] _]. done.
      * intros _ Hno. destruct (Hno error). by apply Hfails.
    + (* a chain that never settles lets the timer fire *)
      exfalso. revert Hchain Hab.
      unfold runWithMiddleware. run_async. unfold JS.nullish, advance, forever. cbn.
      destruct (onJobStarted middleware) as [started|];
        [destruct (started metadata) as [d1 v1|d1 e1|]|]; cbn;
        leb_cases; cbn;
        destruct (default_ module payload metadata) as [d2 v2|d2 e2|]; cbn;
        leb_cases; cbn;
        (destruct (onJobFinished middleware) as [finished|];
         [destruct (finished metadata) as [d3 v3|d3 e3|]|]); cbn;
        leb_cases; cbn;
        intros [= <-]; done.
Qed.

(** The [catch] block returns [false] once the [onError] hook has
    settled, whether it resolves or rejects; the error it was given is
    on the console. *)
Definition onError_settles : Prop :=
  forall hook, onError middleware = Some hook ->
  forall error md, hook error md <> Never.

Lemma job_catch_returns (queueName : string) (error : Value) (w : World) :
  onError_settles ->
  exists w',
    job_catch metadata middleware queueName error w = (Returned false, w')
    /\ exists rest,
         trace w' = trace w ++
           (now w, ConsoleError [VString ("Error in queue " +:+ JS.dquote +:+ "%s" +:+ JS.dquote +:+ " job %s:");
                                 VString queueName; JS.get metadata "jobID"; error]) :: rest.
Proof.
  intros Hsettles. unfold job_catch. run_async.
  destruct (onError middleware) as [hook|] eqn:Hhook; cbn.
  - specialize (Hsettles hook Hhook (JS.asError error) metadata).
    destruct (hook (JS.asError error) metadata) as [d v|d e|]; [| |done]; cbn.
    + eexists. split; [reflexivity|]. cbn. rewrite advance_trace. cbn.
      rewrite <- app_assoc. by eexists.
    + eexists. split; [reflexivity|]. cbn. rewrite advance_trace. cbn.
      rewrite <- !app_assoc. by eexists.
  - eexists. split; [reflexivity|]. cbn. by eexists.
Qed.

Lemma timer_delay_pos (delay : Z) : 0 < timer_delay delay.
Proof.
  unfold timer_delay. destruct (Z.ltb_spec delay 1); cbn; [lia|].
  destruct (Z.ltb_spec 2147483647 delay); lia.
Qed.

(** The error that the [catch] block of [handleQueuedJob] wrote on the
    console. *)
Definition reported (queueName : string) (error : Value) (w : World) : Prop :=
  exists time,
    (time, ConsoleError [VString ("Error in queue " +:+ JS.dquote +:+ "%s" +:+ JS.dquote +:+ " job %s:");
                         VString queueName; JS.get metadata "jobID"; error])
    ∈ trace w.

(** What [handleQueuedJob] returns, with the queue in the manifest, its
    module loaded and an [onError] hook that settles. *)
Lemma handleQueuedJob_cases (queues : gmap string QueueService)
    (queue : QueueService) (queueName : string) (remainingTime : Z)
    (t0 : Z) (tm : option Z) (st : option LocalStorage) (tr : list (Z * Event)) :
  queues !! queueName = Some queue ->
  onError_settles ->
  let budget := Z.min (timeout queue * 1000) remainingTime in
  let delay := timer_delay (budget * 1000) in
  let w := mkWorld t0 tm false st tr in
  exists completed w',
    handleQueuedJob queues (Some (module, middleware)) metadata newLocalStorage
      payload queueName remainingTime w = (Returned completed, w')
    /\ (completed = true <-> 0 < budget /\ completes_within delay)
    /\ (budget <= 0 -> w' = w)
    /\ (0 < budget -> forall error, fails_within delay error ->
        completed = false /\ reported queueName error w')
    /\ (0 < budget -> ~ completes_within delay ->
        (forall error, ~ fails_within delay error) ->
        completed = false /\
        reported queueName
          (JS.Error ("Timeout: job took longer than " +:+ pretty budget +:+ "s to process")) w').
Proof.
  intros Hqueue Hsettles budget delay w.
  unfold handleQueuedJob. rewrite Hqueue. fold budget.
  destruct (Z.leb_spec budget 0) as [Hbudget|Hbudget].
  - (* out of time at entry *)
    exists false, w. split; [reflexivity|]. split_and!.
    + split; [discriminate|]. intros [? _]. lia.
    + done.
    + intros ?. lia.
    + intros ?. lia.
  - unfold mbind at 1. unfold Async_bind at 1. unfold setTimeout_abort at 1.
    cbn [now timer aborted store trace w].
    destruct (job_try_outcome t0 delay budget st tr (timer_delay_pos _))
      as (o & w1 & Htry & Htrue & Hcases & Hfails & Htimeout).
    fold delay.
    destruct Hcases as [->|[error ->]].
    + (* completed in time *)
      eexists true, _. split.
      { apply finally_returns; [|done]. unfold try_catch. rewrite Htry. reflexivity. }
      split_and!.
      * split; [|done]. intros _. split; [done|]. by apply Htrue.
      * intros ?. lia.
      * intros _ error Hf. specialize (Hfails error Hf). discriminate.
      * intros _ Hno. destruct Hno. by apply Htrue.
    + (* the [catch] block *)
      destruct (job_catch_returns queueName error w1 Hsettles) as (w2 & Hcatch & rest & Hrest).
      eexists false, _. split.
      { apply finally_returns; [|done]. unfold try_catch. rewrite Htry. exact Hcatch. }
      assert (reported queueName error
                (mkWorld (now w2) None true (store w2) (trace w2))) as Hreported.
      { exists (now w1). cbn. rewrite Hrest. set_solver. }
      split_and!.
      * split; [discriminate|]. intros [_ Hc]. apply Htrue in Hc. discriminate.
      * intros ?. lia.
      * intros _ error' Hf. specialize (Hfails error' Hf) as [= ->]. done.
      * intros _ Hnc Hno. split; [done|].
        assert (Thrown error <> Returned true) as Hne by discriminate.
        specialize (Htimeout Hne Hno) as [= ->]. done.
Qed.

(** C1, as the code has it. With the queue in the manifest, its module
    loaded and an [onError] hook that settles, [handleQueuedJob]
    returns a boolean. It is [true] exactly when the time budget is
    positive and the job completes before the timer fires. It is
    [false] in three situations: the budget is exhausted at entry, and
    then nothing is invoked and no time passes; the handler or a job
    hook throws before the timer fires; the timer fires first. The
    last two differ only in the error that is reported, that of the
    handler or the timeout error. *)
Theorem handleQueuedJob_outcome (queues : gmap string QueueService)
    (queue : QueueService) (queueName : string) (remainingTime : Z)
    (t0 : Z) (tm : option Z) (st : option LocalStorage) (tr : list (Z * Event)) :
  queues !! queueName = Some queue ->
  onError_settles ->
  let budget := Z.min (timeout queue * 1000) remainingTime in
  let delay := timer_delay (budget * 1000) in
  let w := mkWorld t0 tm false st tr in
  exists completed w',
    handleQueuedJob queues (Some (module, middleware)) metadata newLocalStorage
      payload queueName remainingTime w = (Returned completed, w')
    /\ (completed = true <-> 0 < budget /\ completes_within delay)
    /\ (budget <= 0 -> w' = w)
    /\ (0 < budget -> forall error, fails_within delay error ->
        completed = false /\ reported queueName error w')
    /\ (0 < budget -> ~ completes_within delay ->
        (forall error, ~ fails_within delay error) ->
        completed = false /\
        reported queueName
          (JS.Error ("Timeout: job took longer than " +:+ pretty budget +:+ "s to process")) w').
Proof.
  intros Hqueue Hsettles. by apply handleQueuedJob_cases.
Qed.

End QueueSpec.

(** A queue with a timeout of 5 seconds, a job for it with the payload
    of the documentation, and the 30 seconds that the development
    server gives to a job. *)
Definition example_queues : gmap string Queue.QueueService :=
  {[ "screenshots" := Queue.mkQueueService 5 ]}.

Definition example_metadata : Queue.Metadata :=
  [("queueName", VString "screenshots"); ("jobId", VString "4b7a");
   ("receivedCount", VNumber 1); ("user", VNull)].

Definition example_payload : Value := VObject [("id", VNumber 123)].

Definition no_hooks : Queue.QueueMiddleware := Queue.mkQueueMiddleware None None None.

Definition example_storage : Async.LocalStorage :=
  Async.mkLocalStorage VUndefined VUndefined.

Definition example_job (middleware : Queue.QueueMiddleware) (handler : Behaviour)
  : Outcome bool * World :=
  Queue.handleQueuedJob example_queues
    (Some (Queue.mkQueueExports (fun _ _ => handler), middleware))
    example_metadata example_storage example_payload "screenshots" 30000
    Async.initial.

Lemma handleQueuedJob_outcome_witness :
  example_queues !! "screenshots" = Some (Queue.mkQueueService 5) /\
  exists completed w',
    example_job no_hooks (Resolves 20 VUndefined) = (Returned completed, w') /\
    (completed = true <->
     0 < Z.min (5 * 1000) 30000 /\
     completes_within example_metadata no_hooks
       (Queue.mkQueueExports (fun _ _ => Resolves 20 VUndefined)) example_payload
       (Async.timer_delay (Z.min (5 * 1000) 30000 * 1000))).
Proof.
  split; [reflexivity|].
  destruct (handleQueuedJob_outcome example_metadata no_hooks
              (Queue.mkQueueExports (fun _ _ => Resolves 20 VUndefined))
              example_storage example_payload example_queues
              (Queue.mkQueueService 5) "screenshots" 30000 0 None None []
              eq_refl (fun hook H => ltac:(discriminate H)))
    as (completed & w' & Hrun & Htrue & _).
  exists completed, w'. split; [exact Hrun|exact Htrue].
Defined.

(** C1 as stated fails: with the whole budget left, a handler that
    throws after 10 ms makes the job [false] as well. No timer has
    fired, and the error on the console is the error of the handler. *)
Lemma handleQueuedJob_thrown_error_counterexample :
  0 < Z.min (5 * 1000) 30000
  /\ fst (example_job no_hooks (Rejects 10 (JS.Error "boom"))) = Returned false
  /\ Async.now (snd (example_job no_hooks (Rejects 10 (JS.Error "boom")))) = 10
  /\ Async.trace (snd (example_job no_hooks (Rejects 10 (JS.Error "boom"))))
     = [(0, Called "default" [example_payload; VObject example_metadata]);
        (10, ConsoleError
               [VString ("Error in queue " +:+ JS.dquote +:+ "%s" +:+ JS.dquote +:+ " job %s:");
                VString "screenshots"; VUndefined; JS.Error "boom"])].
Proof. repeat split. Qed.

(** C2 fails on the code. The timeout is computed in milliseconds,
    [Math.min(queue.timeout * 1000, remainingTime)], and multiplied by
    1000 once more for [setTimeout]: with a timeout of 5 seconds and 30
    seconds left the timer is due after 5 000 000 ms. A handler that
    takes 6 seconds is reported completed, and one that never settles
    is reported timed out after 5000 seconds. *)
Theorem handleQueuedJob_timer_fires_late :
  fst (example_job no_hooks (Resolves 6000 VUndefined)) = Returned true
  /\ Async.now (snd (example_job no_hooks (Resolves 6000 VUndefined))) = 6000
  /\ fst (example_job no_hooks Never) = Returned false
  /\ Async.now (snd (example_job no_hooks Never)) = 5000000
  /\ Async.trace (snd (example_job no_hooks Never))
     = [(0, Called "default" [example_payload; VObject example_metadata]);
        (5000000, ConsoleError
               [VString ("Error in queue " +:+ JS.dquote +:+ "%s" +:+ JS.dquote +:+ " job %s:");
                VString "screenshots"; VUndefined;
                JS.Error "Timeout: job took longer than 5000s to process"])].
Proof. repeat split. Qed.

(** In general: a job whose handler never settles is reported timed
    out when the timer fires, a thousand times the time budget after
    the start. *)
Lemma handleQueuedJob_timeout_time (queues : gmap string Queue.QueueService)
    (queue : Queue.QueueService) (queueName : string) (remainingTime : Z)
    (metadata : Queue.Metadata) (module : Queue.QueueExports)
    (newLocalStorage : Async.LocalStorage) (payload : Value)
    (t0 : Z) (tm : option Z) (st : option Async.LocalStorage) (tr : list (Z * Event)) :
  queues !! queueName = Some queue ->
  0 < Z.min (Queue.timeout queue * 1000) remainingTime ->
  Queue.default_ module payload metadata = Never ->
  exists w',
    Queue.handleQueuedJob queues (Some (module, no_hooks)) metadata newLocalStorage
      payload queueName remainingTime (Async.mkWorld t0 tm false st tr)
    = (Returned false, w')
    /\ Async.now w'
       = t0 + Async.timer_delay (Z.min (Queue.timeout queue * 1000) remainingTime * 1000).
Proof.
  intros Hqueue Hbudget Hnever.
  unfold Queue.handleQueuedJob. rewrite Hqueue.
  destruct (Z.leb_spec (Z.min (Queue.timeout queue * 1000) remainingTime) 0); [lia|].
  unfold Queue.job_try, Queue.job_catch, Queue.runWithMiddleware, no_hooks.
  run_async. rewrite Hnever. cbn. eexists. split; reflexivity.
Qed.

(** ** Clean-up of the two handlers *)

Section CleanUp.
Import Async.

Variable JSON_parse : string -> Result Value.
Variable TimeoutError : string -> Value.
Variable QUEUE_RUN_INDENT : Z.

(** C10. Whenever [handleQueuedJob] settles, by returning or by
    throwing, the timer is cleared and the signal is aborted, unless
    it left before it made the controller (no queue, no module or no
    time left), in which case nothing has run and the world is as it
    was. Whenever [handleRoute] settles, the timer is cleared and the
    signal is aborted. *)
Theorem handlers_clean_up :
  (forall queues loaded metadata newLocalStorage payload queueName remainingTime
          (w w' : World) (o : Outcome bool),
      Queue.handleQueuedJob queues loaded metadata newLocalStorage payload
        queueName remainingTime w = (o, w') ->
      o <> Pending ->
      (timer w' = None /\ aborted w' = true) \/ (w' = w /\ o <> Returned true))
  /\
  (forall config connection data filename handler middleware newLocalStorage
          requestId timeout userId (w w' : World) (o : Outcome (option string)),
      WebSocket.handleRoute JSON_parse TimeoutError QUEUE_RUN_INDENT config
        connection data filename handler middleware newLocalStorage requestId
        timeout userId w = (o, w') ->
      o <> Pending ->
      timer w' = None /\ aborted w' = true).
Proof.
  split.
  - intros queues loaded metadata newLocalStorage payload queueName remainingTime
      w w' o Hrun Hsettled.
    unfold Queue.handleQueuedJob in Hrun.
    destruct (queues !! queueName) as [queue|].
    + destruct loaded as [[module middleware]|].
      * destruct (Z.min (Queue.timeout queue * 1000) remainingTime <=? 0).
        -- injection Hrun as <- <-. right. done.
        -- left. unfold mbind at 1, Async_bind at 1, setTimeout_abort at 1 in Hrun.
           by apply finally_cleans in Hrun.
      * injection Hrun as <- <-. right. done.
    + injection Hrun as <- <-. right. done.
  - intros config connection data filename handler middleware newLocalStorage
      requestId timeout userId w w' o Hrun Hsettled.
    unfold WebSocket.handleRoute in Hrun.
    unfold mbind at 1, Async_bind at 1, setTimeout_abort at 1 in Hrun.
    by apply finally_cleans in Hrun.
Qed.

End CleanUp.

(** ** Authentication of a WebSocket connection *)

Section AuthenticateSpec.
Import Async WebSocket.

Variable middleware : WebSocketMiddleware.
Variable newLocalStorage : LocalStorage.
Variable request : Fetch.Request.



Definition socket_onError_settles : Prop :=
  forall hook, onError middleware = Some hook ->
  forall error req, hook error req <> Never.


End AuthenticateSpec.





(** ** Lifecycle hooks *)

Section Agreement.
Import Async.





End Agreement.

Section MessageSpec.
Import Async WebSocket.

Variable JSON_parse : string -> Result Value.
Variable TimeoutError : string -> Value.
Variable QUEUE_RUN_INDENT : Z.

Variable authenticate : option (Fetch.Request -> list (string * string) -> Behaviour).
Variable onError : option (Value -> Value -> Behaviour).
Variable onMessageReceived : option (Value -> Behaviour).

(** An [onMessageSent] hook that settles, one way or the other. *)
Definition sent_settles (hook : option (list string -> string -> Behaviour)) : Prop :=
  forall sent, hook = Some sent -> forall connections data, sent connections data <> Never.




End MessageSpec.

Section HookFailures.
Import Async.

Variable metadata : Queue.Metadata.
Variable middleware : Queue.QueueMiddleware.
Variable module : Queue.QueueExports.
Variable newLocalStorage : LocalStorage.
Variable payload : Value.



End HookFailures.

Section MessageHookFailures.
Import Async WebSocket.

Variable JSON_parse : string -> Result Value.
Variable TimeoutError : string -> Value.
Variable QUEUE_RUN_INDENT : Z.

Lemma JSON_stringify_object (fields : list (string * Value)) (space : Z) :
  exists text, Encoding.JSON_stringify (VObject fields) space = Some text.
Proof. by eexists. Qed.

#[local] Arguments Encoding.JSON_stringify : simpl never.


End MessageHookFailures.


(** A text message on a connection, and socket middleware whose
    [onMessageSent] hook is given. Text messages are not parsed, so
    the parser of these examples is never called. *)
Definition unused_parser (text : string) : Result Value :=
  Throw (VError "SyntaxError" "Unexpected token in JSON").

Definition TimeoutError (message : string) : Value := VError "TimeoutError" message.

Definition example_route (onMessageSent : option (list string -> string -> Behaviour))
    (handler : Behaviour) : Outcome (option string) * World :=
  WebSocket.handleRoute unused_parser TimeoutError 0 (WebSocket.mkConfig (Some "text"))
    "Yc5pfGuSwLstgA" "hello" "socket/index.js" (fun _ => handler)
    (WebSocket.mkMiddleware None None None onMessageSent)
    example_storage "c7e9" 10 (Some "u1") Async.initial.

(** A text message whose [onMessageReceived] hook is given. *)
Definition example_received (onMessageReceived : Value -> Behaviour)
  : Outcome (option string) * World :=
  WebSocket.handleRoute unused_parser TimeoutError 0 (WebSocket.mkConfig (Some "text"))
    "Yc5pfGuSwLstgA" "hello" "socket/index.js" (fun _ => Resolves 5 (VString "world"))
    (WebSocket.mkMiddleware None None (Some onMessageReceived) None)
    example_storage "c7e9" 10 (Some "u1") Async.initial.



Lemma handlers_clean_up_witness :
  (Async.timer (snd (example_job no_hooks Never)) = None
   /\ Async.aborted (snd (example_job no_hooks Never)) = true)
  /\ (Async.timer (snd (example_route None Never)) = None
      /\ Async.aborted (snd (example_route None Never)) = true).
Proof.
  destruct (handlers_clean_up unused_parser TimeoutError 0) as [Hjob Hroute].
  split.
  - destruct (Hjob example_queues
                (Some (Queue.mkQueueExports (fun _ _ => Never), no_hooks))
                example_metadata example_storage example_payload "screenshots" 30000
                Async.initial (snd (example_job no_hooks Never))
                (fst (example_job no_hooks Never)) eq_refl
                ltac:(discriminate)) as [Hclean|[Hsame _]].
    + exact Hclean.
    + discriminate Hsame.
  - apply (Hroute (WebSocket.mkConfig (Some "text")) "Yc5pfGuSwLstgA" "hello"
             "socket/index.js" (fun _ => Never)
             (WebSocket.mkMiddleware None None None None) example_storage "c7e9" 10
             (Some "u1") Async.initial (snd (example_route None Never))
             (fst (example_route None Never)) eq_refl).
    discriminate.
Defined.

(** ** Isolation of execution contexts *)

Section ContextIsolation.
Import Async Context.

(** What [newLocalStorage()] creates. *)
Variable fresh : LocalStorage.























(** Two invocations of [handleRoute] in flight in the same process,
    and one of them alone. *)
Definition together (program1 program2 : list Op) : Process :=
  mkProcess [] (spawn <$> {[ 1%nat := program1; 2%nat := program2 ]}).



End ContextIsolation.

(** An interleaving in which the second invocation sets its user
    between the moment the first one sets its own and the moment it
    reads it back: the first one reads its own. *)
Example contexts_isolated_interleaving :
  Context.observations
    (Context.run example_storage [1; 1; 1; 1; 2; 2; 2; 2; 1; 2; 1; 2]%nat
       (together
          (Context.handleRoute_program (Some "alice") "c1"
             [Context.SetUser (VObject [("id", VString "alice"); ("admin", VBool true)]);
              Context.GetUser])
          (Context.handleRoute_program (Some "bob") "c2"
             [Context.SetUser (VObject [("id", VString "bob")]); Context.GetUser])))
    1
  = [VObject [("id", VString "alice"); ("admin", VBool true)]].
Proof. vm_compute. reflexivity. Qed.

(** * Further properties *)

(** ** Bodies through the Lambda adapter *)


Section Base64.
Import Encoding.







End Base64.

Section LambdaBodies.
Import Async Lambda.




End LambdaBodies.



(** ** URL templates, in general *)

Section ReplaceBracket.
Import Url.

(** The text has no opening bracket. *)
Fixpoint no_bracket (s : string) : bool :=
  match s with
  | "" => true
  | String c r => negb (Ascii.eqb c "[") && no_bracket r
  end.

Lemma match_bracket_other (s : string) :
  match s with String c _ => Ascii.eqb c "[" = false | "" => True end ->
  match_bracket s = None.
Proof.
  unfold match_bracket. destruct s as [|c r]; [done|].
  destruct c as [[] [] [] [] [] [] [] []]; done.
Qed.

Lemma match_at_other (at_start : bool) (c : ascii) (r : string) :
  Ascii.eqb c "/" = false -> Ascii.eqb c "[" = false ->
  match_at at_start (String c r) = None.
Proof.
  unfold match_at, match_bracket.
  destruct c as [[] [] [] [] [] [] [] []]; try done; by destruct at_start.
Qed.

Lemma match_at_slash (at_start : bool) (r : string) :
  match_at at_start (String "/" r)
  = match match_bracket r with
    | Some (n, a, rest) => Some (mkMatch "/" n a rest)
    | None => None
    end.
Proof. by destruct at_start. Qed.

Lemma match_at_no_bracket (at_start : bool) (s : string) :
  no_bracket s = true -> match_at at_start s = None.
Proof.
  intros H. destruct s as [|c r]; [by destruct at_start|].
  cbn [no_bracket] in H. apply andb_prop in H as [Hc H]. apply negb_true_iff in Hc.
  destruct (Ascii.eqb_spec c "/") as [->|Hslash].
  - rewrite match_at_slash, match_bracket_other; [done|].
    destruct r as [|d r]; [done|].
    cbn [no_bracket] in H. apply andb_prop in H as [Hd _]. by apply negb_true_iff in Hd.
  - apply match_at_other; [|done]. by apply Ascii.eqb_neq.
Qed.

Lemma replace_all_no_bracket (fuel : nat) (at_start : bool) (s : string) :
  no_bracket s = true -> replace_all fuel at_start s = s.
Proof.
  revert at_start s. induction fuel as [|fuel IH]; intros at_start s H; [done|].
  cbn [replace_all]. rewrite (match_at_no_bracket _ _ H).
  destruct s as [|c r]; [done|].
  cbn in H. apply andb_prop in H as [_ H]. by rewrite IH.
Qed.

(** X3. A path without an opening bracket is a pattern already:
    [replaceBracket] returns it as it is. *)
Theorem replaceBracket_no_bracket (path : string) :
  no_bracket path = true -> replaceBracket path = path.
Proof. apply replace_all_no_bracket. Qed.

Lemma replaceBracket_no_bracket_witness :
  no_bracket "/bookmarks/123?sort=date" = true
  /\ replaceBracket "/bookmarks/123?sort=date" = "/bookmarks/123?sort=date".
Proof.
  split; [reflexivity|].
  apply (replaceBracket_no_bracket "/bookmarks/123?sort=date"). reflexivity.
Defined.

(** Routes whose bracket segments are apart. The segments below follow
    the convention of the file names of routes. *)

(** A segment of the file name of a route: a static text, [[name]] or
    [[...name]]. *)
Inductive Segment :=
| Static (text : string)
| Param (name : string)
| CatchAll (name : string).

Definition is_static (segment : Segment) : bool :=
  match segment with Static _ => true | _ => false end.

(** The segment as the file system has it. *)
Definition segment_file (segment : Segment) : string :=
  match segment with
  | Static text => text
  | Param name => String "[" (name +:+ "]")
  | CatchAll name => String "[" ("..." +:+ name +:+ "]")
  end.

(** The segment as path-to-regexp wants it: [:name] for a parameter,
    [:name*] for a catch-all parameter. *)
Definition segment_pattern (segment : Segment) : string :=
  match segment with
  | Static text => text
  | Param name => String ":" name
  | CatchAll name => String ":" (name +:+ "*")
  end.

Fixpoint route_file (segments : list Segment) : string :=
  match segments with
  | [] => ""
  | segment :: rest => String "/" (segment_file segment +:+ route_file rest)
  end.

Fixpoint route_pattern (segments : list Segment) : string :=
  match segments with
  | [] => ""
  | segment :: rest => String "/" (segment_pattern segment +:+ route_pattern rest)
  end.

Fixpoint no_slash (s : string) : bool :=
  match s with
  | "" => true
  | String c r => negb (Ascii.eqb c "/") && no_slash r
  end.

(** A static segment has no slash and does not start with a bracket;
    a name is plain, and the name of a parameter is not empty and does
    not start with three dots. *)
Definition segment_ok (segment : Segment) : bool :=
  match segment with
  | Static text => no_slash text && negb (String.prefix "[" text)
  | Param name =>
      plain name && negb (String.eqb name "") && negb (String.prefix "..." name)
  | CatchAll name => plain name
  end.

(** No two bracket segments follow each other. *)
Fixpoint separated (segments : list Segment) : bool :=
  match segments with
  | first :: (second :: _) as rest =>
      (is_static first || is_static second) && separated rest
  | _ => true
  end.

Lemma match_at_false_other (c : ascii) (r : string) :
  Ascii.eqb c "/" = false -> match_at false (String c r) = None.
Proof.
  unfold match_at. destruct c as [[] [] [] [] [] [] [] []]; done.
Qed.

Lemma replace_all_empty (fuel : nat) : replace_all fuel false "" = "".
Proof. by destruct fuel. Qed.

(** The search goes over a text without a slash and leaves it as it
    is. *)
Lemma replace_all_no_slash (text : string) (fuel : nat) (tail : string) :
  no_slash text = true ->
  replace_all (String.length text + fuel) false (text +:+ tail)
  = text +:+ replace_all fuel false tail.
Proof.
  induction text as [|c text IH]; intros H; [reflexivity|].
  cbn [no_slash] in H. apply andb_prop in H as [Hc H]. apply negb_true_iff in Hc.
  rewrite !append_cons. cbn [String.length Nat.add replace_all].
  rewrite (match_at_false_other _ _ Hc). by rewrite IH.
Qed.

Lemma length_append (s t : string) :
  String.length (s +:+ t) = (String.length s + String.length t)%nat.
Proof. induction s as [|c s IH]; [done|]. rewrite append_cons. cbn. by rewrite IH. Qed.

(** A static segment is left as it is, and the search resumes after
    it. *)
Lemma replace_all_static (text tail : string) (fuel : nat) :
  no_slash text = true -> String.prefix "[" text = false ->
  match tail with String c _ => Ascii.eqb c "[" = false | "" => True end ->
  (String.length (text +:+ tail) < fuel)%nat ->
  replace_all (S fuel) false (String "/" (text +:+ tail))
  = String "/" (text +:+ replace_all (fuel - String.length text) false tail).
Proof.
  intros Hslash Hbracket Htail Hfuel.
  cbn [replace_all]. rewrite match_at_slash, match_bracket_other.
  - f_equal. rewrite length_append in Hfuel.
    rewrite <- (replace_all_no_slash text _ tail Hslash).
    apply replace_all_fuel; rewrite length_append; lia.
  - destruct text as [|c text]; [exact Htail|].
    rewrite append_cons.
    destruct (Ascii.eqb_spec c "[") as [->|]; [|done].
    by destruct text; vm_compute in Hbracket.
Qed.

(** The name of a bracket segment at the end of the path is matched
    whole. *)
Lemma match_name_plain_end (c : ascii) (name : string) :
  plain (String c name) = true ->
  match_name (String c name +:+ "]") = Some (String c name, "", "").
Proof.
  revert c. induction name as [|d name IH]; intros c Hplain.
  - simpl in Hplain. apply andb_prop in Hplain as [Hc _].
    change (String c "" +:+ "]") with (String c "]").
    cbn [match_name]. rewrite (plain_char_is_dot c _ Hc). reflexivity.
  - cbn [plain] in Hplain. apply andb_prop in Hplain as [Hc Hrest].
    rewrite append_cons. cbn [match_name]. rewrite (plain_char_is_dot c _ Hc).
    rewrite append_cons.
    apply andb_prop in Hrest as Hd. destruct Hd as [Hd _].
    rewrite (plain_char_not_close d _ Hd).
    rewrite <- append_cons.
    rewrite (IH d Hrest). reflexivity.
Qed.

(** What the replacement function makes of a name. *)
Definition parameter (name : string) : string :=
  if String.prefix "..." name
  then String.substring 3 (String.length name - 3) name +:+ "*"
  else name.

(** A bracket segment that a static segment follows, or that ends the
    path, is replaced; the search resumes after the slash. *)
Lemma replace_all_segment (c : ascii) (name tail : string) (fuel : nat) :
  plain (String c name) = true ->
  replace_all (S fuel) false
    (String "/" (String "[" (String c name +:+ String "]" (String "/" tail))))
  = String "/" (String ":" (parameter (String c name) +:+
      String "/" (replace_all fuel false tail))).
Proof.
  intros Hplain. cbn [replace_all].
  rewrite match_at_slash. unfold match_bracket.
  rewrite (match_name_plain c name tail Hplain).
  unfold replacement. cbn [before Url.name after rest].
  change ("/" +:+ ":" +:+ ?x) with (String "/" (String ":" x)).
  rewrite !append_cons. do 2 f_equal. fold (parameter (String c name)).
  by rewrite append_assoc.
Qed.

Lemma replace_all_last_segment (c : ascii) (name : string) (fuel : nat) :
  plain (String c name) = true ->
  replace_all (S fuel) false (String "/" (String "[" (String c name +:+ "]")))
  = String "/" (String ":" (parameter (String c name))).
Proof.
  intros Hplain. cbn [replace_all].
  rewrite match_at_slash. unfold match_bracket.
  rewrite (match_name_plain_end c name Hplain).
  unfold replacement. cbn [before Url.name after rest].
  change ("/" +:+ ":" +:+ ?x) with (String "/" (String ":" x)).
  rewrite replace_all_empty. fold (parameter (String c name)).
  rewrite !append_cons. do 2 f_equal.
  generalize (parameter (String c name)). intros s.
  induction s as [|d s IH]; [done|]. rewrite !append_cons. by rewrite IH.
Qed.

Lemma substring_all (s : string) : String.substring 0 (String.length s) s = s.
Proof. induction s as [|c s IH]; [done|]. cbn. by rewrite IH. Qed.

(** The text between the brackets of a segment, and what the
    replacement function makes of it. *)
Definition bracket_name (segment : Segment) : string :=
  match segment with
  | Static text => text
  | Param name => name
  | CatchAll name => "..." +:+ name
  end.

Lemma parameter_segment (segment : Segment) :
  is_static segment = false -> segment_ok segment = true ->
  String ":" (parameter (bracket_name segment)) = segment_pattern segment
  /\ segment_file segment = String "[" (bracket_name segment +:+ "]")
  /\ exists c name, bracket_name segment = String c name /\ plain (String c name) = true.
Proof.
  destruct segment as [text|name|name]; [done|..]; intros _ Hok; cbn in Hok.
  - apply andb_prop in Hok as [Hok Hdots]. apply andb_prop in Hok as [Hplain Hempty].
    apply negb_true_iff in Hdots. unfold parameter. cbn [bracket_name segment_pattern].
    rewrite Hdots. split_and!; [done..|].
    destruct name as [|c name]; [done|]. by exists c, name.
  - split_and!.
    + unfold parameter. cbn [bracket_name segment_pattern].
      change ("..." +:+ name) with (String "." (String "." (String "." name))).
      cbn [String.prefix String.length Nat.sub]. cbn.
      assert (String.prefix "" name = true) as -> by (by destruct name).
      by rewrite Nat.sub_0_r, substring_all.
    + cbn [segment_file bracket_name]. by rewrite append_assoc.
    + exists "."%char, (String "." (String "." name)). split; [done|].
      cbn. exact Hok.
Qed.

Lemma route_file_head (segments : list Segment) :
  match route_file segments with String c _ => Ascii.eqb c "[" = false | "" => True end.
Proof. by destruct segments. Qed.

Lemma replace_all_route (segments : list Segment) :
  forallb segment_ok segments = true -> separated segments = true ->
  forall fuel, (String.length (route_file segments) < fuel)%nat ->
  replace_all fuel false (route_file segments) = route_pattern segments.
Proof.
  induction segments as [|first rest IH]; intros Hok Hsep fuel Hfuel.
  - apply replace_all_empty.
  - cbn [forallb] in Hok. apply andb_prop in Hok as [Hfirst Hok].
    assert (separated rest = true) as Hsep'.
    { destruct rest; [done|]. cbn [separated] in Hsep. by apply andb_prop in Hsep as [_ ?]. }
    specialize (IH Hok Hsep').
    destruct fuel as [|fuel]; [lia|].
    cbn [route_file route_pattern] in *. cbn [String.length] in Hfuel.
    destruct (is_static first) eqn:Hstatic.
    + destruct first as [text| |]; try discriminate Hstatic.
      cbn [segment_ok] in Hfirst. apply andb_prop in Hfirst as [Hslash Hbracket].
      apply negb_true_iff in Hbracket.
      cbn [segment_file segment_pattern] in *.
      rewrite replace_all_static; [|done|done|apply route_file_head|lia].
      rewrite IH; [done|]. rewrite length_append in Hfuel. lia.
    + destruct (parameter_segment first Hstatic Hfirst)
        as (Hpattern & Hfile & c & name & Hname & Hplain).
      rewrite <- Hpattern, Hfile, Hname.
      destruct rest as [|second rest].
      * cbn [route_file route_pattern].
        assert (forall s, s +:+ "" = s) as Hnil.
        { intros s. induction s as [|d s IHs]; [done|]. by rewrite append_cons, IHs. }
        rewrite !append_cons, !Hnil.
        change (String c (name +:+ "]")) with (String c name +:+ "]").
        by rewrite replace_all_last_segment.
      * cbn [separated] in Hsep. apply andb_prop in Hsep as [Hone _].
        rewrite Hstatic in Hone. cbn in Hone.
        destruct second as [text| |]; try discriminate Hone.
        cbn [forallb] in Hok. apply andb_prop in Hok as [Hsecond _].
        cbn [segment_ok] in Hsecond. apply andb_prop in Hsecond as [Hslash Hbracket].
        apply negb_true_iff in Hbracket.
        cbn [route_file route_pattern segment_file segment_pattern] in *.
        rewrite !append_cons, append_assoc. rewrite !append_cons.
        change ("]" +:+ ?x) with (String "]" x).
        change (String c (name +:+ ?x)) with (String c name +:+ x).
        change ("" +:+ ?x) with x.
        rewrite replace_all_segment by done.
        do 4 f_equal.
        rewrite length_append in Hfuel. cbn [String.length] in Hfuel.
        rewrite length_append in Hfuel.
        specialize (IH (S fuel)).
        rewrite replace_all_static in IH;
          [|done|done|apply route_file_head|rewrite length_append; lia].
        assert (String.length (String "/" (text +:+ route_file rest)) < S fuel)%nat as Hlen.
        { cbn [String.length]. rewrite length_append. lia. }
        specialize (IH Hlen). injection IH as IH.
        rewrite <- IH.
        replace fuel with (String.length text + (fuel - String.length text))%nat at 1 by lia.
        by apply replace_all_no_slash.
Qed.

(** X4. [replaceBracket] is right for the routes whose bracket
    segments are apart. For a route made of well-formed segments, no
    two bracket segments of which follow each other, the path of its
    file becomes the pattern of the route: every [[name]] becomes
    [:name], every [[...name]] becomes [:name*], and the static
    segments stay. *)
Theorem replaceBracket_separated_segments (segments : list Segment) :
  forallb segment_ok segments = true -> separated segments = true ->
  replaceBracket (route_file segments) = route_pattern segments.
Proof.
  intros Hok Hsep. unfold replaceBracket.
  rewrite <- (replace_all_route segments Hok Hsep (S (String.length (route_file segments))))
    by lia.
  destruct segments as [|first rest]; [done|].
  cbn [route_file replace_all]. by rewrite !match_at_slash.
Qed.

Lemma replaceBracket_separated_segments_witness :
  forallb segment_ok [Static "projects"; Param "project"; Static "files"; CatchAll "path"]
  = true
  /\ separated [Static "projects"; Param "project"; Static "files"; CatchAll "path"] = true
  /\ route_file [Static "projects"; Param "project"; Static "files"; CatchAll "path"]
     = "/projects/[project]/files/[...path]"
  /\ replaceBracket "/projects/[project]/files/[...path]"
     = "/projects/:project/files/:path*".
Proof.
  split_and!; [reflexivity..|].
  apply (replaceBracket_separated_segments
           [Static "projects"; Param "project"; Static "files"; CatchAll "path"]);
    reflexivity.
Defined.

End ReplaceBracket.

(** ** Cookies of a connect request *)

Section Cookies.
Import WebSocket.

(** The pieces of a cookie header, trimmed. *)
Definition pieces (header : string) : list string :=
  map trim (split_semicolon header).












End Cookies.




(** ** WebSocket messages, in general *)

Section SocketReplies.
Import Async WebSocket.

Variable JSON_parse : string -> Result Value.
Variable TimeoutError : string -> Value.
Variable QUEUE_RUN_INDENT : Z.

#[local] Arguments Encoding.JSON_stringify : simpl never.

(** [handleOnError] returns once the hook has settled. *)
Lemma handleOnError_returns (error : Value) (filename : string)
    (middleware : WebSocketMiddleware) (request : Value) (w : World) :
  socket_onError_settles middleware ->
  exists w', handleOnError error filename middleware request w = (Returned tt, w').
Proof.
  intros Hsettles. unfold handleOnError.
  destruct (onError middleware) as [hook|] eqn:Hhook; [|by eexists].
  specialize (Hsettles hook Hhook (JS.asError error) request).
  run_async. destruct (hook (JS.asError error) request); [| |done]; by eexists.
Qed.

(** [handleResponse] returns the text of the response once
    [onMessageSent] has settled, and throws when the response has no
    text. *)
Lemma handleResponse_settles (connection : string) (middleware : WebSocketMiddleware)
    (response : Value) (w : World) :
  sent_settles (onMessageSent middleware) ->
  (exists data w',
      handleResponse QUEUE_RUN_INDENT connection middleware response w
      = (Returned (Some data), w')
      /\ resultToBuffer QUEUE_RUN_INDENT response w = (Returned data, w))
  \/ (exists error,
        handleResponse QUEUE_RUN_INDENT connection middleware response w = (Thrown error, w)
        /\ resultToBuffer QUEUE_RUN_INDENT response w = (Thrown error, w)).
Proof.
  intros Hsettles. unfold handleResponse.
  assert ((exists data, resultToBuffer QUEUE_RUN_INDENT response w = (Returned data, w))
          \/ (exists error, resultToBuffer QUEUE_RUN_INDENT response w = (Thrown error, w)))
    as [[data Hdata]|[error Herror]].
  { unfold resultToBuffer.
    destruct response; try (left; by eexists);
      destruct (Encoding.JSON_stringify _ _); (left + right); by eexists. }
  - left. exists data. unfold mbind at 1, Async_bind at 1. rewrite Hdata.
    destruct (onMessageSent middleware) as [sent|] eqn:Hsent; [|by eexists].
    specialize (Hsettles sent eq_refl [connection] data).
    run_async. destruct (sent [connection] data); [| |done]; by eexists.
  - right. exists error. unfold mbind at 1, Async_bind at 1. by rewrite Herror.
Qed.

(** The [catch] block of [runWithMiddleware]: [onError] is called with
    the error and the request, and the reply is the error as a JSON
    object. *)
Lemma catch_reply (error : Value) (filename connection : string)
    (middleware : WebSocketMiddleware) (request : Value) (w : World) :
  socket_onError_settles middleware ->
  sent_settles (onMessageSent middleware) ->
  exists w',
    (handleOnError error filename middleware request ;;
     handleResponse QUEUE_RUN_INDENT connection middleware
       (VObject [("error", VString (JS.String_ error))])) w
    = (Returned (Encoding.JSON_stringify (VObject [("error", VString (JS.String_ error))])
                   QUEUE_RUN_INDENT), w')
    /\ now w <= now w'
    /\ (is_Some (onError middleware) ->
        (now w, Called "onError" [JS.asError error; request]) ∈ trace w')
    /\ (forall event, event ∈ trace w -> event ∈ trace w').
Proof.
  intros HonError Hsent.
  destruct (JSON_stringify_object [("error", VString (JS.String_ error))] QUEUE_RUN_INDENT)
    as [text Htext].
  unfold handleOnError, handleResponse, resultToBuffer. rewrite Htext.
  destruct w as [t0 tm ab st tr].
  destruct (onError middleware) as [hook|] eqn:Hhook;
    [specialize (HonError hook Hhook (JS.asError error) request)|];
    (destruct (onMessageSent middleware) as [sent|];
     [specialize (Hsent sent eq_refl [connection] text)|]);
    run_async;
    try (destruct (hook (JS.asError error) request) as [d1 v1|d1 e1|]; [| |done]);
    try (destruct (sent [connection] text) as [d2 v2|d2 e2|]; [| |done]);
    cbn; (eexists; split; [reflexivity|]);
    (split;
     [unfold advance; cbn; destruct tm; cbn; repeat (leb_cases; cbn); lia
     |cbn; rewrite ?advance_trace; cbn; rewrite ?advance_trace; cbn;
      rewrite ?advance_trace; cbn;
      split; [intros Hsome; try (by destruct Hsome); set_solver|set_solver]]).
Qed.

(** The request that the hooks and the handler of a route get. *)
Definition request_of (parsed : Value) (connection requestId : string)
    (userId : option string) : Value :=
  VObject [("data", parsed); ("connection", VString connection);
           ("requestId", VString requestId); ("user", user_of userId)].

(** The race of [runWithMiddleware] settles: the timer fires when the
    hook or the handler never settle. *)
Lemma race_settles (middleware : WebSocketMiddleware) (handler : Value -> Behaviour)
    (request : Value) (t0 due : Z) (st : option LocalStorage) (tr : list (Z * Event)) :
  fst (race_abort
         (match onMessageReceived middleware with
          | Some onMessageReceived =>
              call "onMessageReceived" [request] (onMessageReceived request) ;; mret tt
          | None => mret tt
          end ;;
          call "handler" [request] (handler request))
         (mkWorld t0 (Some due) false st tr)) <> Pending.
Proof.
  run_async. unfold advance, forever. cbn.
  destruct (onMessageReceived middleware) as [hook|];
    [destruct (hook request) as [d1 v1|d1 e1|]|]; cbn;
    repeat (leb_cases; cbn);
    destruct (handler request) as [d2 v2|d2 e2|]; cbn;
    repeat (leb_cases; cbn); done.
Qed.

(** [runWithMiddleware] returns a reply for a message that it can
    read, once the hooks [onError] and [onMessageSent] have settled. *)
Lemma runWithMiddleware_returns (config : WebSocketConfig) (data filename : string)
    (handler : Value -> Behaviour) (metadata : list (string * Value))
    (middleware : WebSocketMiddleware) (parsed : Value)
    (t0 due : Z) (st : option LocalStorage) (tr : list (Z * Event)) :
  bufferToData JSON_parse data config = Ok parsed ->
  socket_onError_settles middleware ->
  sent_settles (onMessageSent middleware) ->
  exists reply w',
    runWithMiddleware JSON_parse TimeoutError QUEUE_RUN_INDENT config data filename
      handler metadata middleware (mkWorld t0 (Some due) false st tr)
    = (Returned reply, w').
Proof.
  intros Hdata HonError Hsent. unfold runWithMiddleware. rewrite Hdata.
  set (request := VObject (("data", parsed) :: metadata)).
  pose proof (race_settles middleware handler request t0 due st tr) as Hrace.
  assert (forall error w, exists reply w',
    (handleOnError error filename middleware request ;;
     handleResponse QUEUE_RUN_INDENT (JS.String_ (JS.get metadata "connection")) middleware
       (VObject [("error", VString (JS.String_ error))])) w = (Returned reply, w'))
    as Hcatch.
  { intros error w.
    destruct (handleOnError_returns error filename middleware request w HonError) as [w1 H1].
    unfold mbind at 1, Async_bind at 1. rewrite H1.
    destruct (handleResponse_settles (JS.String_ (JS.get metadata "connection")) middleware
                (VObject [("error", VString (JS.String_ error))]) w1 Hsent)
      as [(text & w2 & H2 & _)|(e & _ & H2)].
    - rewrite H2. by eexists _, _.
    - unfold resultToBuffer in H2.
      destruct (JSON_stringify_object [("error", VString (JS.String_ error))] QUEUE_RUN_INDENT)
        as [text Htext].
      rewrite Htext in H2. discriminate H2. }
  unfold try_catch. unfold mbind at 1, Async_bind at 1.
  match goal with
  | H : fst ?r <> Pending |- _ => destruct r as [[winner|error|] w1]; [| |done]
  end.
  - unfold mbind at 1, Async_bind at 1, signal_aborted at 1.
    destruct (aborted w1); [apply Hcatch|].
    destruct (negb _); [by eexists _, _|].
    destruct (handleResponse_settles (JS.String_ (JS.get metadata "connection")) middleware
                (default VUndefined winner) w1 Hsent)
      as [(text & w2 & -> & _)|(e & -> & _)]; [by eexists _, _|apply Hcatch].
  - apply Hcatch.
Qed.

(** [handleRoute] returns a reply for a message that it can read, and
    throws the error of the parser, with nothing invoked, for one that
    it cannot. *)
Lemma handleRoute_settles (config : WebSocketConfig) (connection data filename : string)
    (handler : Value -> Behaviour) (middleware : WebSocketMiddleware)
    (newLocalStorage : LocalStorage) (requestId : string) (timeout : Z)
    (userId : option string)
    (t0 : Z) (tm : option Z) (st : option LocalStorage) (tr : list (Z * Event)) :
  socket_onError_settles middleware ->
  sent_settles (onMessageSent middleware) ->
  match bufferToData JSON_parse data config with
  | Ok _ =>
      exists reply w',
        handleRoute JSON_parse TimeoutError QUEUE_RUN_INDENT config connection data
          filename handler middleware newLocalStorage requestId timeout userId
          (mkWorld t0 tm false st tr) = (Returned reply, w')
  | Throw error =>
      handleRoute JSON_parse TimeoutError QUEUE_RUN_INDENT config connection data
        filename handler middleware newLocalStorage requestId timeout userId
        (mkWorld t0 tm false st tr) = (Thrown error, mkWorld t0 None true st tr)
  end.
Proof.
  intros HonError Hsent. unfold handleRoute.
  rewrite setTimeout_then. cbn [now timer aborted store trace].
  destruct (bufferToData JSON_parse data config) as [parsed|error] eqn:Hdata.
  - match goal with
    | |- context [runWithMiddleware _ _ _ _ _ _ _ ?metadata _] =>
        destruct (runWithMiddleware_returns config data filename handler metadata middleware
                    parsed t0 (t0 + timer_delay (timeout * 1000))
                    (Some (mkLocalStorage (user_of userId) (VString connection))) tr
                    Hdata HonError Hsent) as (reply & w' & Hrun)
    end.
    eexists reply, _. apply finally_returns; [|done].
    unfold withLocalStorage. cbn [now timer aborted store trace].
    rewrite set_connection_then. cbn [user]. rewrite Hrun. reflexivity.
  - unfold runWithMiddleware. rewrite Hdata. reflexivity.
Qed.

(** What [onMessageReceived] does with a request; a hook that is not
    there takes no time. *)
Definition received (middleware : WebSocketMiddleware) (request : Value) : Behaviour :=
  match onMessageReceived middleware with
  | Some hook => hook request
  | None => Resolves 0 VUndefined
  end.

(** Neither a string nor a Buffer. *)
Definition structured (response : Value) : Prop :=
  match response with
  | VString _ | VBuffer _ => False
  | _ => True
  end.

(** X7. The reply to a message whose handler returns in time is
    decided by what it returns: a falsy value gives no reply, and
    [onMessageSent] is not invoked; a string that is not empty and a
    Buffer are the reply as they are; any other value with a JSON text
    is sent as that text. *)
Theorem handleRoute_reply (config : WebSocketConfig) (connection data filename : string)
    (handler : Value -> Behaviour) (middleware : WebSocketMiddleware)
    (newLocalStorage : LocalStorage) (requestId : string) (timeout : Z)
    (userId : option string)
    (t0 : Z) (tm : option Z) (st : option LocalStorage) (tr : list (Z * Event))
    (parsed : Value) (d1 d2 : N) (v1 response : Value) :
  bufferToData JSON_parse data config = Ok parsed ->
  received middleware (request_of parsed connection requestId userId) = Resolves d1 v1 ->
  handler (request_of parsed connection requestId userId) = Resolves d2 response ->
  Z.of_N d1 + Z.of_N d2 < timer_delay (timeout * 1000) ->
  sent_settles (onMessageSent middleware) ->
  let reply :=
    handleRoute JSON_parse TimeoutError QUEUE_RUN_INDENT config connection data
      filename handler middleware newLocalStorage requestId timeout userId
      (mkWorld t0 tm false st tr) in
  (JS.truthy response = false ->
   exists w', reply = (Returned None, w')
              /\ (invoked "onMessageSent" (trace w') -> invoked "onMessageSent" tr))
  /\ (forall text, response = VString text -> text <> "" ->
      exists w', reply = (Returned (Some text), w'))
  /\ (forall bytes, response = VBuffer bytes ->
      exists w', reply = (Returned (Some bytes), w'))
  /\ (forall text, structured response -> JS.truthy response = true ->
      Encoding.JSON_stringify response QUEUE_RUN_INDENT = Some text ->
      exists w', reply = (Returned (Some text), w')).
Proof.
  intros Hdata Hreceived Hhandler Htime Hsent reply. subst reply.
  unfold handleRoute. rewrite setTimeout_then. cbn [now timer aborted store trace].
  unfold runWithMiddleware, handleResponse, received, request_of in *.
  rewrite Hdata.
  assert (forall text : string, exists w2 : World -> World, forall w1,
    (match onMessageSent middleware with
     | Some onMessageSent =>
         try_catch
           (call "onMessageSent" [VArray [VString connection]; VBuffer text]
                 (onMessageSent [connection] text) ;; mret tt)
           (fun error =>
             console_error [VString "Internal processing error in onMessageSent"; error])
     | None => mret tt
     end) w1 = (Returned tt, w2 w1)) as Hsent'.
  { intros text.
    destruct (onMessageSent middleware) as [sent|]; [|by eexists].
    specialize (Hsent sent eq_refl [connection] text).
    run_async. destruct (sent [connection] text); [| |done]; by eexists. }
  split_and!.
  - intros Hfalsy. run_async. unfold advance. cbn.
    destruct (onMessageReceived middleware) as [hook|];
      [rewrite Hreceived|injection Hreceived as <- <-];
      rewrite Hhandler; cbn; repeat (leb_cases; cbn; try lia);
      rewrite Hfalsy; cbn; (eexists; split; [reflexivity|]); cbn; not_invoked.
  - intros text -> Hempty. destruct (Hsent' text) as [w2 Hw2].
    assert (String.eqb text "" = false) as Htruthy.
    { by destruct (String.eqb_spec text ""). }
    unfold resultToBuffer. run_async. unfold advance. cbn.
    destruct (onMessageReceived middleware) as [hook|];
      [rewrite Hreceived|injection Hreceived as <- <-];
      rewrite Hhandler; cbn; repeat (leb_cases; cbn; try lia);
      rewrite Htruthy; cbn; rewrite Hw2; by eexists.
  - intros bytes ->. destruct (Hsent' bytes) as [w2 Hw2].
    unfold resultToBuffer. run_async. unfold advance. cbn.
    destruct (onMessageReceived middleware) as [hook|];
      [rewrite Hreceived|injection Hreceived as <- <-];
      rewrite Hhandler; cbn; repeat (leb_cases; cbn; try lia);
      rewrite Hw2; by eexists.
  - intros text Hstructured Htruthy Htext. destruct (Hsent' text) as [w2 Hw2].
    assert (resultToBuffer QUEUE_RUN_INDENT response = mret text) as Hbuffer.
    { unfold resultToBuffer. rewrite Htext. by destruct response. }
    run_async. unfold advance. cbn -[resultToBuffer].
    destruct (onMessageReceived middleware) as [hook|];
      [rewrite Hreceived|injection Hreceived as <- <-];
      rewrite Hhandler; cbn -[resultToBuffer];
      repeat (leb_cases; cbn -[resultToBuffer]; try lia);
      rewrite Htruthy; cbn -[resultToBuffer]; rewrite Hbuffer; cbn;
      rewrite Hw2; by eexists.
Qed.

(** The behaviour has not settled when the timer fires, [delay] after
    the start, [spent] of which went by before it was called. *)
Definition misses (behaviour : Behaviour) (spent delay : Z) : Prop :=
  match behaviour with
  | Resolves after _ | Rejects after _ => delay <= spent + Z.of_N after
  | Never => True
  end.

(** X8. A handler that has not settled when the timer fires, [timeout]
    seconds after the start, is answered for: the reply is the timeout
    error as a JSON object, and it does not come before the timer. *)
Theorem handleRoute_timeout (config : WebSocketConfig) (connection data filename : string)
    (handler : Value -> Behaviour) (middleware : WebSocketMiddleware)
    (newLocalStorage : LocalStorage) (requestId : string) (timeout : Z)
    (userId : option string)
    (t0 : Z) (tm : option Z) (st : option LocalStorage) (tr : list (Z * Event))
    (parsed : Value) (d1 : N) (v1 : Value) :
  bufferToData JSON_parse data config = Ok parsed ->
  received middleware (request_of parsed connection requestId userId) = Resolves d1 v1 ->
  misses (handler (request_of parsed connection requestId userId)) (Z.of_N d1)
    (timer_delay (timeout * 1000)) ->
  socket_onError_settles middleware ->
  sent_settles (onMessageSent middleware) ->
  exists w',
    handleRoute JSON_parse TimeoutError QUEUE_RUN_INDENT config connection data
      filename handler middleware newLocalStorage requestId timeout userId
      (mkWorld t0 tm false st tr)
    = (Returned (Encoding.JSON_stringify
                   (VObject [("error",
                              VString (JS.String_ (TimeoutError "Request aborted: timed out")))])
                   QUEUE_RUN_INDENT), w')
    /\ t0 + timer_delay (timeout * 1000) <= now w'.
Proof.
  intros Hdata Hreceived Hmisses HonError Hsent.
  pose proof (timer_delay_pos (timeout * 1000)) as Hpos.
  unfold handleRoute. rewrite setTimeout_then. cbn [now timer aborted store trace].
  unfold runWithMiddleware, received, request_of, misses in *. rewrite Hdata.
  match goal with
  | |- context [try_catch ?body ?handler] =>
      assert (exists w1,
        body (mkWorld t0 (Some (t0 + timer_delay (timeout * 1000))) false
                (Some (mkLocalStorage (user_of userId) (VString connection))) tr)
        = (Thrown (TimeoutError "Request aborted: timed out"), w1)
        /\ t0 + timer_delay (timeout * 1000) <= now w1) as (w1 & Hbody & Hnow)
  end.
  { run_async. unfold advance, forever. cbn.
    destruct (onMessageReceived middleware) as [hook|];
      [rewrite Hreceived|injection Hreceived as <- <-];
      cbn; repeat (leb_cases; cbn; try lia);
      (destruct (handler _) as [d2 v2|d2 e2|]; cbn; repeat (leb_cases; cbn; try lia));
      (eexists; split; [reflexivity|]); cbn; lia. }
  match goal with
  | |- context [handleOnError _ filename middleware ?request] =>
      destruct (catch_reply (TimeoutError "Request aborted: timed out") filename connection
                  middleware request w1 HonError Hsent)
        as (w2 & Hcatch & Hlater & _ & _)
  end.
  eexists. split.
  - apply finally_returns; [|done].
    unfold withLocalStorage. cbn [now timer aborted store trace].
    rewrite set_connection_then. cbn [user].
    unfold try_catch at 1. cbn [JS.String_ JS.get String.eqb Ascii.eqb Bool.eqb] in *.
    rewrite Hbody. rewrite Hcatch. reflexivity.
  - cbn [now]. lia.
Qed.

(** X18. A handler that throws before the timer is answered for as
    well: the reply is its error as a JSON object, whatever it threw,
    and [onError], if the middleware has it, is called with the error
    as an Error and with the request, at the time of the failure. *)
Theorem handleRoute_handler_throws (config : WebSocketConfig)
    (connection data filename : string)
    (handler : Value -> Behaviour) (middleware : WebSocketMiddleware)
    (newLocalStorage : LocalStorage) (requestId : string) (timeout : Z)
    (userId : option string)
    (t0 : Z) (tm : option Z) (st : option LocalStorage) (tr : list (Z * Event))
    (parsed : Value) (d1 d2 : N) (v1 error : Value) :
  bufferToData JSON_parse data config = Ok parsed ->
  received middleware (request_of parsed connection requestId userId) = Resolves d1 v1 ->
  handler (request_of parsed connection requestId userId) = Rejects d2 error ->
  Z.of_N d1 + Z.of_N d2 < timer_delay (timeout * 1000) ->
  socket_onError_settles middleware ->
  sent_settles (onMessageSent middleware) ->
  exists w',
    handleRoute JSON_parse TimeoutError QUEUE_RUN_INDENT config connection data
      filename handler middleware newLocalStorage requestId timeout userId
      (mkWorld t0 tm false st tr)
    = (Returned (Encoding.JSON_stringify (VObject [("error", VString (JS.String_ error))])
                   QUEUE_RUN_INDENT), w')
    /\ (is_Some (onError middleware) ->
        (t0 + Z.of_N d1 + Z.of_N d2,
         Called "onError" [JS.asError error;
                           request_of parsed connection requestId userId]) ∈ trace w').
Proof.
  intros Hdata Hreceived Hhandler Htime HonError Hsent.
  unfold handleRoute. rewrite setTimeout_then. cbn [now timer aborted store trace].
  unfold runWithMiddleware, received, request_of in *. rewrite Hdata.
  match goal with
  | |- context [try_catch ?body ?handler] =>
      assert (exists w1,
        body (mkWorld t0 (Some (t0 + timer_delay (timeout * 1000))) false
                (Some (mkLocalStorage (user_of userId) (VString connection))) tr)
        = (Thrown error, w1) /\ now w1 = t0 + Z.of_N d1 + Z.of_N d2) as (w1 & Hbody & Hnow)
  end.
  { run_async. unfold advance. cbn.
    destruct (onMessageReceived middleware) as [hook|];
      [rewrite Hreceived|injection Hreceived as <- <-];
      rewrite Hhandler; cbn; repeat (leb_cases; cbn; try lia);
      (eexists; split; [reflexivity|]); cbn; lia. }
  match goal with
  | |- context [handleOnError _ filename middleware ?request] =>
      destruct (catch_reply error filename connection middleware request w1 HonError Hsent)
        as (w2 & Hcatch & _ & Hcalled & _)
  end.
  eexists. split.
  - apply finally_returns; [|done].
    unfold withLocalStorage. cbn [now timer aborted store trace].
    rewrite set_connection_then. cbn [user].
    unfold try_catch at 1. cbn [JS.String_ JS.get String.eqb Ascii.eqb Bool.eqb] in *.
    rewrite Hbody. rewrite Hcatch. reflexivity.
  - cbn [trace]. rewrite <- Hnow. exact Hcalled.
Qed.

(** X20. Nothing stops the handler once the timer has fired: when
    [onMessageReceived] resolves after the timeout, the reply is the
    timeout error, and the handler is invoked all the same, when the
    hook resolves. *)
Theorem handleRoute_late_handler (config : WebSocketConfig)
    (connection data filename : string)
    (handler : Value -> Behaviour) (middleware : WebSocketMiddleware)
    (newLocalStorage : LocalStorage) (requestId : string) (timeout : Z)
    (userId : option string)
    (t0 : Z) (tm : option Z) (st : option LocalStorage) (tr : list (Z * Event))
    (parsed : Value) (hook : Value -> Behaviour) (d1 : N) (v1 : Value) :
  bufferToData JSON_parse data config = Ok parsed ->
  onMessageReceived middleware = Some hook ->
  hook (request_of parsed connection requestId userId) = Resolves d1 v1 ->
  timer_delay (timeout * 1000) <= Z.of_N d1 ->
  socket_onError_settles middleware ->
  sent_settles (onMessageSent middleware) ->
  exists w',
    handleRoute JSON_parse TimeoutError QUEUE_RUN_INDENT config connection data
      filename handler middleware newLocalStorage requestId timeout userId
      (mkWorld t0 tm false st tr)
    = (Returned (Encoding.JSON_stringify
                   (VObject [("error",
                              VString (JS.String_ (TimeoutError "Request aborted: timed out")))])
                   QUEUE_RUN_INDENT), w')
    /\ (t0 + Z.of_N d1,
        Called "handler" [request_of parsed connection requestId userId]) ∈ trace w'.
Proof.
  intros Hdata Hhook Hreceived Hlate HonError Hsent.
  pose proof (timer_delay_pos (timeout * 1000)) as Hpos.
  unfold handleRoute. rewrite setTimeout_then. cbn [now timer aborted store trace].
  unfold runWithMiddleware, request_of in *. rewrite Hdata, Hhook.
  match goal with
  | |- context [try_catch ?body ?handler] =>
      assert (exists w1,
        body (mkWorld t0 (Some (t0 + timer_delay (timeout * 1000))) false
                (Some (mkLocalStorage (user_of userId) (VString connection))) tr)
        = (Thrown (TimeoutError "Request aborted: timed out"), w1)
        /\ (t0 + Z.of_N d1,
            Called "handler"
              [VObject [("data", parsed); ("connection", VString connection);
                        ("requestId", VString requestId); ("user", user_of userId)]])
           ∈ trace w1) as (w1 & Hbody & Hcalled)
  end.
  { run_async. unfold advance, forever. cbn. rewrite Hreceived.
    cbn; repeat (leb_cases; cbn; try lia);
      (destruct (handler _) as [d2 v2|d2 e2|]; cbn; repeat (leb_cases; cbn; try lia));
      (eexists; split; [reflexivity|]); cbn; set_solver. }
  match goal with
  | |- context [handleOnError _ filename middleware ?request] =>
      destruct (catch_reply (TimeoutError "Request aborted: timed out") filename connection
                  middleware request w1 HonError Hsent)
        as (w2 & Hcatch & _ & _ & Hkept)
  end.
  eexists. split.
  - apply finally_returns; [|done].
    unfold withLocalStorage. cbn [now timer aborted store trace].
    rewrite set_connection_then. cbn [user].
    unfold try_catch at 1. cbn [JS.String_ JS.get String.eqb Ascii.eqb Bool.eqb] in *.
    rewrite Hbody. rewrite Hcatch. reflexivity.
  - cbn [trace]. by apply Hkept.
Qed.

Variable common : WebSocketMiddleware.
Variable findRoute : string -> N * Result Found.

(** The configuration of the module of a route. *)
Definition config_of (found : Found) : WebSocketConfig :=
  default (mkConfig None) (module_config found).

(** The reply that carries an error. *)
Definition error_reply (message : string) : option string :=
  Encoding.JSON_stringify (VObject [("error", VString message)]) 0.

Lemma stringify_buffer_error {A} (message : string) (k : string -> Async A) (w : World) :
  exists text,
    error_reply message = Some text
    /\ (stringify_buffer (VObject [("error", VString message)]) ≫= k) w = k text w.
Proof.
  unfold stringify_buffer, error_reply.
  destruct (JSON_stringify_object [("error", VString message)] 0) as [text ->].
  by exists text.
Qed.

Ltac error_reply_text text Htext :=
  match goal with
  | |- context [(stringify_buffer (VObject [("error", VString ?message)]) ≫= ?k) ?w] =>
      destruct (stringify_buffer_error message k w) as (text & Htext & ->)
  end.

(** X9. [handleWebSocketMessage] never throws and never hangs: once
    the [onError] and [onMessageSent] hooks settle, it returns a
    reply, or [null], whatever the route lookup, the parser, the
    handler and [onMessageReceived] do. *)
Theorem handleWebSocketMessage_returns (connection data : string)
    (newLocalStorage : LocalStorage) (requestId : string) (userId : option string)
    (t0 : Z) (st : option LocalStorage) (tr : list (Z * Event)) :
  socket_onError_settles common ->
  (forall after found, findRoute data = (after, Ok found) ->
     socket_onError_settles (found_middleware found)
     /\ sent_settles (onMessageSent (found_middleware found))) ->
  exists reply w',
    handleWebSocketMessage JSON_parse TimeoutError QUEUE_RUN_INDENT common findRoute
      connection data newLocalStorage requestId userId (mkWorld t0 None false st tr)
    = (Returned reply, w').
Proof.
  intros Hcommon Hfound. unfold handleWebSocketMessage.
  assert (forall error w, exists reply w',
    (console_error [VString "Internal processing error %s"; VString connection; error] ;;
     reply ← stringify_buffer (VObject [("error", VString (JS.String_ error))]);
     mret (Some reply)) w = (Returned reply, w')) as Hcatch.
  { intros error w. unfold mbind at 1, Async_bind at 1, console_error, log.
    error_reply_text text Htext. by eexists _, _. }
  unfold try_catch at 1. unfold mbind at 1, Async_bind at 1.
  unfold try_catch at 1. unfold mbind at 1, Async_bind at 1.
  unfold await_settled. destruct (findRoute data) as [after [found|error]] eqn:Hroute.
  - destruct (Hfound after found eq_refl) as [HonError Hsent].
    cbn [advance now timer aborted store trace mret Async_ret].
    pose proof (handleRoute_settles (config_of found) connection data (route_filename found)
                  (module_default found) (found_middleware found) newLocalStorage requestId
                  (route_timeout found) userId (t0 + Z.of_N after) None st tr
                  HonError Hsent) as Hroute'.
    fold (config_of found).
    destruct (bufferToData JSON_parse data (config_of found)) as [parsed|error].
    + destruct Hroute' as (reply & w' & ->). by eexists _, _.
    + rewrite Hroute'. apply Hcatch.
  - assert (forall w1,
      (exists w2,
         (match onError common with
          | Some onError =>
              call "onError" [JS.asError error] (onError (JS.asError error) VUndefined) ;;
              mret tt
          | None => mret tt
          end) w1 = (Returned tt, w2))
      \/ (exists failure w2,
            (match onError common with
             | Some onError =>
                 call "onError" [JS.asError error] (onError (JS.asError error) VUndefined) ;;
                 mret tt
             | None => mret tt
             end) w1 = (Thrown failure, w2))) as Hhook.
    { intros w1. destruct (onError common) as [hook|] eqn:Hhook; [|left; by eexists].
      specialize (Hcommon hook Hhook (JS.asError error) VUndefined).
      run_async. destruct (hook (JS.asError error) VUndefined) as [d v|d e|]; [| |done].
      - left. by eexists.
      - right. by eexists _, _. }
    match goal with
    | |- context [(?m ≫= ?k) (advance ?dt ?w0)] =>
        change ((m ≫= k) (advance dt w0))
          with (match m (advance dt w0) with
                | (Returned a, w') => k a w'
                | (Thrown e, w') => (Thrown e, w')
                | (Pending, w') => (Pending, w')
                end);
        destruct (Hhook (advance dt w0)) as [[w2 ->]|(failure & w2 & ->)]
    end.
    + error_reply_text text Htext. by eexists _, _.
    + apply Hcatch.
Qed.

(** X10. A message that cannot be read (its JSON does not parse) never
    reaches the route: no hook and no handler is invoked, [onError]
    included; the error goes to the console and the reply carries its
    text. *)
Theorem handleWebSocketMessage_unreadable (connection data : string)
    (newLocalStorage : LocalStorage) (requestId : string) (userId : option string)
    (t0 : Z) (st : option LocalStorage) (tr : list (Z * Event))
    (after : N) (found : Found) (error : Value) :
  findRoute data = (after, Ok found) ->
  bufferToData JSON_parse data (config_of found) = Throw error ->
  handleWebSocketMessage JSON_parse TimeoutError QUEUE_RUN_INDENT common findRoute
    connection data newLocalStorage requestId userId (mkWorld t0 None false st tr)
  = (Returned (error_reply (JS.String_ error)),
     mkWorld (t0 + Z.of_N after) None true st
       (tr ++ [(t0 + Z.of_N after,
                ConsoleError [VString "Internal processing error %s"; VString connection;
                              error])])).
Proof.
  intros Hroute Hdata.
  unfold handleWebSocketMessage, handleRoute, runWithMiddleware, await_settled.
  rewrite Hroute. unfold config_of in Hdata.
  unfold stringify_buffer, error_reply, Encoding.JSON_stringify.
  cbn [Encoding.serialize].
  run_async. rewrite Hdata. reflexivity.
Qed.

(** X11. When no route is found, [onError] of the common middleware is
    told and the reply is the error [Not available]. The call of
    [onError] is not guarded there: when the hook throws, its own
    error goes to the console and is what the reply carries. *)
Theorem handleWebSocketMessage_not_found (connection data : string)
    (newLocalStorage : LocalStorage) (requestId : string) (userId : option string)
    (t0 : Z) (st : option LocalStorage) (tr : list (Z * Event))
    (after : N) (error : Value) :
  findRoute data = (after, Throw error) ->
  let reply :=
    handleWebSocketMessage JSON_parse TimeoutError QUEUE_RUN_INDENT common findRoute
      connection data newLocalStorage requestId userId (mkWorld t0 None false st tr) in
  let notified := (t0 + Z.of_N after, Called "onError" [JS.asError error]) in
  (onError common = None ->
   reply = (Returned (error_reply "Not available"),
            mkWorld (t0 + Z.of_N after) None false st tr))
  /\ (forall hook time value,
        onError common = Some hook ->
        hook (JS.asError error) VUndefined = Resolves time value ->
        reply = (Returned (error_reply "Not available"),
                 mkWorld (t0 + Z.of_N after + Z.of_N time) None false st
                   (tr ++ [notified])))
  /\ (forall hook time failure,
        onError common = Some hook ->
        hook (JS.asError error) VUndefined = Rejects time failure ->
        reply = (Returned (error_reply (JS.String_ failure)),
                 mkWorld (t0 + Z.of_N after + Z.of_N time) None false st
                   (tr ++ [notified;
                           (t0 + Z.of_N after + Z.of_N time,
                            ConsoleError [VString "Internal processing error %s";
                                          VString connection; failure])]))).
Proof.
  intros Hroute reply notified. subst reply notified.
  unfold handleWebSocketMessage, await_settled. rewrite Hroute.
  unfold stringify_buffer, error_reply, Encoding.JSON_stringify.
  cbn [Encoding.serialize].
  split_and!.
  - intros ->. run_async. reflexivity.
  - intros hook time value -> Hhook. run_async. rewrite Hhook. cbn.
    by rewrite <- ?app_assoc.
  - intros hook time failure -> Hhook. run_async. rewrite Hhook. cbn.
    by rewrite <- ?app_assoc.
Qed.

End SocketReplies.

Section Notifications.
Import Async WebSocket.

Variable middleware : WebSocketMiddleware.

(** X12. [onMessageSentAsync] never throws once the hooks settle: an
    error of [onMessageSent] is passed to [onError], as an Error, and
    an error of [onError] goes to the console. *)
Theorem onMessageSentAsync_returns (connections : list string) (data : string) (w : World) :
  socket_onError_settles middleware ->
  sent_settles (onMessageSent middleware) ->
  exists w',
    onMessageSentAsync middleware connections data w = (Returned tt, w')
    /\ (forall sent after error onError,
          onMessageSent middleware = Some sent ->
          sent connections data = Rejects after error ->
          WebSocket.onError middleware = Some onError ->
          (now w + Z.of_N after, Called "onError" [JS.asError error]) ∈ trace w').
Proof.
  intros HonError Hsent. unfold onMessageSentAsync.
  destruct (onMessageSent middleware) as [sent|]; [|by eexists].
  specialize (Hsent sent eq_refl connections data).
  run_async.
  destruct (sent connections data) as [d v|d e|] eqn:Hsettled; [| |done]; cbn.
  - eexists. split; [reflexivity|]. intros ? ? ? ? [= <-] Hrejects. congruence.
  - destruct (onError middleware) as [hook|] eqn:Hhook; cbn.
    + specialize (HonError hook Hhook (JS.asError e) VUndefined).
      destruct (hook (JS.asError e) VUndefined) as [d' v'|d' e'|]; [| |done]; cbn;
        (eexists; split; [reflexivity|]);
        intros ? ? ? ? [= <-] Hrejects _;
        rewrite Hsettled in Hrejects; injection Hrejects as <- <-;
        rewrite ?advance_trace; cbn; rewrite ?advance_trace; cbn;
        destruct w as [t0 tm ab st tr]; unfold advance; cbn;
        destruct tm; cbn; repeat (leb_cases; cbn); set_solver.
    + eexists. split; [reflexivity|]. intros ? ? ? ? _ _ [=].
Qed.

(** X13. [handleUserOnline] and [handleUserOffline] never throw once
    the hooks settle. They return [null] exactly when the middleware
    has no hook for the event, and the local storage that was current
    before the call is current after it. *)
Theorem presence_hooks_return (hook : option (string -> Behaviour))
    (newLocalStorage : LocalStorage) (userId : string) (w : World) :
  socket_onError_settles middleware ->
  (forall notify, hook = Some notify -> notify userId <> Never) ->
  (exists value w',
      handleUserOnline hook middleware newLocalStorage userId w = (Returned value, w')
      /\ store w' = store w
      /\ (value = VNull <-> hook = None))
  /\ (exists value w',
        handleUserOffline hook middleware newLocalStorage userId w = (Returned value, w')
        /\ store w' = store w
        /\ (value = VNull <-> hook = None)).
Proof.
  intros HonError Hhook. unfold handleUserOnline, handleUserOffline.
  destruct hook as [notify|]; [|split; by eexists _, _].
  specialize (Hhook notify eq_refl).
  run_async.
  destruct (notify userId) as [d v|d e|]; [| |done]; cbn.
  - split; eexists _, _; split_and!; try reflexivity; split; discriminate.
  - destruct (onError middleware) as [onError|] eqn:Herr; cbn.
    + specialize (HonError onError Herr (JS.asError e) VUndefined).
      destruct (onError (JS.asError e) VUndefined) as [d' v'|d' e'|]; [| |done]; cbn;
        split; eexists _, _; split_and!; try reflexivity; split; discriminate.
    + split; eexists _, _; split_and!; try reflexivity; split; discriminate.
Qed.

End Notifications.

(** A text route whose handler settles in a given way, and a lookup
    that finds it after 2 ms. *)
Definition example_found (handler : Behaviour) : WebSocket.Found :=
  WebSocket.mkFound (WebSocket.mkMiddleware None None None None)
    (Some (WebSocket.mkConfig (Some "text"))) (fun _ => handler) "socket/index.js" 10.

Definition example_message (findRoute : string -> N * Result WebSocket.Found)
  : Outcome (option string) * World :=
  WebSocket.handleWebSocketMessage unused_parser TimeoutError 0
    (WebSocket.mkMiddleware None None None None) findRoute
    "Yc5pfGuSwLstgA" "hello" example_storage "c7e9" (Some "u1") Async.initial.

Lemma handleRoute_reply_witness :
  exists w', example_route None (Resolves 5 (VString "world")) = (Returned (Some "world"), w').
Proof.
  destruct (handleRoute_reply unused_parser TimeoutError 0 (WebSocket.mkConfig (Some "text"))
              "Yc5pfGuSwLstgA" "hello" "socket/index.js"
              (fun _ => Resolves 5 (VString "world"))
              (WebSocket.mkMiddleware None None None None) example_storage "c7e9" 10
              (Some "u1") 0 None None [] (VString "hello") 0 5 VUndefined (VString "world")
              eq_refl eq_refl eq_refl eq_refl (fun sent H => ltac:(discriminate H)))
    as (_ & Htext & _).
  apply (Htext "world" eq_refl). discriminate.
Defined.

Lemma handleRoute_timeout_witness :
  exists w',
    example_route None Never
    = (Returned (Encoding.JSON_stringify
                   (VObject [("error", VString "TimeoutError: Request aborted: timed out")]) 0),
       w')
    /\ 10000 <= Async.now w'.
Proof.
  apply (handleRoute_timeout unused_parser TimeoutError 0 (WebSocket.mkConfig (Some "text"))
           "Yc5pfGuSwLstgA" "hello" "socket/index.js" (fun _ => Never)
           (WebSocket.mkMiddleware None None None None) example_storage "c7e9" 10
           (Some "u1") 0 None None [] (VString "hello") 0 VUndefined
           eq_refl eq_refl I
           (fun hook H => ltac:(discriminate H))
           (fun sent H => ltac:(discriminate H))).
Defined.

Lemma handleRoute_handler_throws_witness :
  exists w',
    example_route None (Rejects 5 (VString "no such room"))
    = (Returned (Encoding.JSON_stringify (VObject [("error", VString "no such room")]) 0), w').
Proof.
  destruct (handleRoute_handler_throws unused_parser TimeoutError 0
              (WebSocket.mkConfig (Some "text"))
              "Yc5pfGuSwLstgA" "hello" "socket/index.js"
              (fun _ => Rejects 5 (VString "no such room"))
              (WebSocket.mkMiddleware None None None None) example_storage "c7e9" 10
              (Some "u1") 0 None None [] (VString "hello") 0 5 VUndefined
              (VString "no such room")
              eq_refl eq_refl eq_refl eq_refl
              (fun hook H => ltac:(discriminate H))
              (fun sent H => ltac:(discriminate H)))
    as (w' & Hrun & _).
  exists w'. exact Hrun.
Defined.

Lemma handleRoute_late_handler_witness :
  exists w',
    example_received (fun _ => Resolves 12000 VUndefined)
    = (Returned (Encoding.JSON_stringify
                   (VObject [("error", VString "TimeoutError: Request aborted: timed out")]) 0),
       w')
    /\ (12000,
        Called "handler"
          [request_of (VString "hello") "Yc5pfGuSwLstgA" "c7e9" (Some "u1")])
       ∈ Async.trace w'.
Proof.
  apply (handleRoute_late_handler unused_parser TimeoutError 0
           (WebSocket.mkConfig (Some "text"))
           "Yc5pfGuSwLstgA" "hello" "socket/index.js"
           (fun _ => Resolves 5 (VString "world"))
           (WebSocket.mkMiddleware None None (Some (fun _ => Resolves 12000 VUndefined)) None)
           example_storage "c7e9" 10
           (Some "u1") 0 None None [] (VString "hello")
           (fun _ => Resolves 12000 VUndefined) 12000 VUndefined
           eq_refl eq_refl eq_refl ltac:(vm_compute; discriminate)
           (fun hook H => ltac:(discriminate H))
           (fun sent H => ltac:(discriminate H))).
Defined.

Lemma handleWebSocketMessage_returns_witness :
  exists reply w',
    example_message (fun _ => (2%N, Ok (example_found Never))) = (Returned reply, w').
Proof.
  apply (handleWebSocketMessage_returns unused_parser TimeoutError 0
           (WebSocket.mkMiddleware None None None None)
           (fun _ => (2%N, Ok (example_found Never)))
           "Yc5pfGuSwLstgA" "hello" example_storage "c7e9" (Some "u1") 0 None []
           (fun hook H => ltac:(discriminate H))).
  intros after found [= <- <-]. split.
  - intros hook H. discriminate H.
  - intros sent H. discriminate H.
Defined.

(** The same message on a JSON route: [hello] is not JSON. *)
Lemma handleWebSocketMessage_unreadable_witness :
  example_message
    (fun _ => (2%N, Ok (WebSocket.mkFound (WebSocket.mkMiddleware None None None None)
                          None (fun _ => Resolves 5 (VString "world"))
                          "socket/index.js" 10)))
  = (Returned (error_reply "SyntaxError: Unexpected token in JSON"),
     Async.mkWorld 2 None true None
       [(2, ConsoleError [VString "Internal processing error %s";
                          VString "Yc5pfGuSwLstgA";
                          VError "SyntaxError" "Unexpected token in JSON"])]).
Proof.
  apply (handleWebSocketMessage_unreadable unused_parser TimeoutError 0
           (WebSocket.mkMiddleware None None None None)
           (fun _ => (2%N, Ok (WebSocket.mkFound (WebSocket.mkMiddleware None None None None)
                                 None (fun _ => Resolves 5 (VString "world"))
                                 "socket/index.js" 10)))
           "Yc5pfGuSwLstgA" "hello" example_storage "c7e9" (Some "u1") 0 None [] 2
           _ (VError "SyntaxError" "Unexpected token in JSON") eq_refl eq_refl).
Defined.

Lemma handleWebSocketMessage_not_found_witness :
  example_message (fun _ => (2%N, Throw (JS.Error "Cannot find module")))
  = (Returned (error_reply "Not available"), Async.mkWorld 2 None false None []).
Proof.
  destruct (handleWebSocketMessage_not_found unused_parser TimeoutError 0
              (WebSocket.mkMiddleware None None None None)
              (fun _ => (2%N, Throw (JS.Error "Cannot find module")))
              "Yc5pfGuSwLstgA" "hello" example_storage "c7e9" (Some "u1") 0 None [] 2
              (JS.Error "Cannot find module") eq_refl) as (Hnone & _).
  apply Hnone. reflexivity.
Defined.

Lemma onMessageSentAsync_returns_witness :
  exists w',
    WebSocket.onMessageSentAsync
      (WebSocket.mkMiddleware None (Some (fun _ _ => Resolves 1 VUndefined)) None
         (Some (fun _ _ => Rejects 2 (VString "socket closed"))))
      ["Yc5pfGuSwLstgA"] "hello" Async.initial
    = (Returned tt, w')
    /\ (2, Called "onError" [JS.Error "socket closed"]) ∈ Async.trace w'.
Proof.
  destruct (onMessageSentAsync_returns
              (WebSocket.mkMiddleware None (Some (fun _ _ => Resolves 1 VUndefined)) None
                 (Some (fun _ _ => Rejects 2 (VString "socket closed"))))
              ["Yc5pfGuSwLstgA"] "hello" Async.initial
              (fun hook H error req => ltac:(injection H as <-; discriminate))
              (fun sent H connections data => ltac:(injection H as <-; discriminate)))
    as (w' & Hrun & Hcalled).
  exists w'. split; [exact Hrun|].
  apply (Hcalled _ 2%N (VString "socket closed") _ eq_refl eq_refl eq_refl).
Defined.

Lemma presence_hooks_return_witness :
  exists value w',
    WebSocket.handleUserOnline (Some (fun _ => Rejects 1 (JS.Error "no such user")))
      (WebSocket.mkMiddleware None None None None) example_storage "u1" Async.initial
    = (Returned value, w')
    /\ Async.store w' = None.
Proof.
  destruct (presence_hooks_return (WebSocket.mkMiddleware None None None None)
              (Some (fun _ => Rejects 1 (JS.Error "no such user")))
              example_storage "u1" Async.initial
              (fun hook H => ltac:(discriminate H))
              (fun notify H => ltac:(injection H as <-; discriminate)))
    as [(value & w' & Hrun & Hstore & _) _].
  exists value, w'. split; [exact Hrun|exact Hstore].
Defined.

(** ** Queue jobs, call by call *)

Section QueueCalls.
Import Async Queue.

Variable metadata : Metadata.
Variable middleware : QueueMiddleware.
Variable module : QueueExports.
Variable newLocalStorage : LocalStorage.
Variable payload : Value.

(** The call of a hook of that name, if the middleware has it. *)
Definition hook_call (name : string) (hook : option (Metadata -> Behaviour)) (time : Z)
  : list (Z * Event) :=
  match hook with
  | Some _ => [(time, Called name [VObject metadata])]
  | None => []
  end.

(** X14. What a completed job does, exactly: [onJobStarted], the
    handler and [onJobFinished] are called once each, in that order,
    each when the one before it has resolved; nothing goes to the
    console and [onError] is not called; the job returns [true] when
    the last of them resolves, with the timer cleared, the signal
    aborted and the local storage of the caller back in place. *)
Theorem handleQueuedJob_completed_trace (queues : gmap string QueueService)
    (queue : QueueService) (queueName : string) (remainingTime : Z)
    (t0 : Z) (tm : option Z) (st : option LocalStorage) (tr : list (Z * Event))
    (d1 d2 d3 : N) (v1 v2 v3 : Value) :
  queues !! queueName = Some queue ->
  0 < Z.min (timeout queue * 1000) remainingTime ->
  stage metadata (onJobStarted middleware) = Resolves d1 v1 ->
  default_ module payload metadata = Resolves d2 v2 ->
  stage metadata (onJobFinished middleware) = Resolves d3 v3 ->
  Z.of_N d1 + Z.of_N d2 + Z.of_N d3
  < timer_delay (Z.min (timeout queue * 1000) remainingTime * 1000) ->
  handleQueuedJob queues (Some (module, middleware)) metadata newLocalStorage
    payload queueName remainingTime (mkWorld t0 tm false st tr)
  = (Returned true,
     mkWorld (t0 + Z.of_N d1 + Z.of_N d2 + Z.of_N d3) None true st
       (tr ++ hook_call "onJobStarted" (onJobStarted middleware) t0
           ++ [(t0 + Z.of_N d1, Called "default" [payload; VObject metadata])]
           ++ hook_call "onJobFinished" (onJobFinished middleware)
                (t0 + Z.of_N d1 + Z.of_N d2))).
Proof.
  intros Hqueue Hbudget Hstarted Hhandler Hfinished Htime.
  unfold handleQueuedJob. rewrite Hqueue.
  destruct (Z.leb_spec (Z.min (timeout queue * 1000) remainingTime) 0); [lia|].
  unfold job_try, runWithMiddleware, stage, hook_call in *.
  run_async. unfold JS.nullish, advance. cbn.
  rewrite Hhandler.
  destruct (onJobStarted middleware) as [started|];
    [rewrite Hstarted|injection Hstarted as <- <-];
    (destruct (onJobFinished middleware) as [finished|];
     [rewrite Hfinished|injection Hfinished as <- <-]);
    cbn; repeat (leb_cases; cbn; try lia);
    rewrite <- ?app_assoc, ?Z.add_0_r; reflexivity.
Qed.

(** What follows the report of an error: the call of [onError], if the
    middleware has it, and the line on the console when it throws. *)
Definition onError_events (queueName : string) (error : Value) (time : Z)
  : list (Z * Event) :=
  match onError middleware with
  | None => []
  | Some hook =>
      (time, Called "onError" [JS.asError error; VObject metadata]) ::
      match hook (JS.asError error) metadata with
      | Rejects after failure =>
          [(time + Z.of_N after,
            ConsoleError [VString ("Error in onError handler for queue " +:+ JS.dquote +:+ "%s" +:+ JS.dquote);
                          VString queueName; failure])]
      | _ => []
      end
  end.

(** X15. What a job whose handler throws in time does, exactly: the
    error goes to the console first, then [onError] is called once,
    with the error as an Error (a value that is not one is wrapped).
    An [onError] that throws does not change the outcome: its error
    goes to the console and the job returns [false] all the same. *)
Theorem handleQueuedJob_failed_trace (queues : gmap string QueueService)
    (queue : QueueService) (queueName : string) (remainingTime : Z)
    (t0 : Z) (tm : option Z) (st : option LocalStorage) (tr : list (Z * Event))
    (d1 d2 : N) (v1 error : Value) :
  queues !! queueName = Some queue ->
  0 < Z.min (timeout queue * 1000) remainingTime ->
  stage metadata (onJobStarted middleware) = Resolves d1 v1 ->
  default_ module payload metadata = Rejects d2 error ->
  Z.of_N d1 + Z.of_N d2
  < timer_delay (Z.min (timeout queue * 1000) remainingTime * 1000) ->
  onError_settles middleware ->
  exists w',
    handleQueuedJob queues (Some (module, middleware)) metadata newLocalStorage
      payload queueName remainingTime (mkWorld t0 tm false st tr)
    = (Returned false, w')
    /\ trace w'
       = tr ++ hook_call "onJobStarted" (onJobStarted middleware) t0
            ++ [(t0 + Z.of_N d1, Called "default" [payload; VObject metadata]);
                (t0 + Z.of_N d1 + Z.of_N d2,
                 ConsoleError [VString ("Error in queue " +:+ JS.dquote +:+ "%s" +:+ JS.dquote +:+ " job %s:");
                               VString queueName; JS.get metadata "jobID"; error])]
            ++ onError_events queueName error (t0 + Z.of_N d1 + Z.of_N d2).
Proof.
  intros Hqueue Hbudget Hstarted Hhandler Htime Hsettles.
  unfold handleQueuedJob. rewrite Hqueue.
  destruct (Z.leb_spec (Z.min (timeout queue * 1000) remainingTime) 0); [lia|].
  unfold job_try, job_catch, runWithMiddleware, stage, hook_call, onError_events in *.
  run_async. unfold JS.nullish, advance. cbn.
  rewrite Hhandler.
  (destruct (onJobStarted middleware) as [started|];
   [rewrite Hstarted|injection Hstarted as <- <-]);
    cbn; repeat (leb_cases; cbn; try lia);
    (destruct (onError middleware) as [hook|] eqn:Hhook; cbn;
     [specialize (Hsettles hook Hhook (JS.asError error) metadata);
      destruct (hook (JS.asError error) metadata) as [d4 v4|d4 e4|]; [| |done]|]);
    cbn; repeat (leb_cases; cbn; try lia);
    (eexists; split; [reflexivity|]); cbn;
    rewrite <- ?app_assoc, ?Z.add_0_r; reflexivity.
Qed.

End QueueCalls.

Lemma handleQueuedJob_completed_trace_witness :
  example_job (Queue.mkQueueMiddleware (Some (fun _ => Resolves 1 VUndefined)) None None)
    (Resolves 20 VUndefined)
  = (Returned true,
     Async.mkWorld 21 None true None
       [(0, Called "onJobStarted" [VObject example_metadata]);
        (1, Called "default" [example_payload; VObject example_metadata])]).
Proof.
  apply (handleQueuedJob_completed_trace example_metadata
           (Queue.mkQueueMiddleware (Some (fun _ => Resolves 1 VUndefined)) None None)
           (Queue.mkQueueExports (fun _ _ => Resolves 20 VUndefined))
           example_storage example_payload example_queues (Queue.mkQueueService 5)
           "screenshots" 30000 0 None None [] 1 20 0 VUndefined VUndefined VUndefined);
    reflexivity.
Defined.

Lemma handleQueuedJob_failed_trace_witness :
  exists w',
    example_job
      (Queue.mkQueueMiddleware None None (Some (fun _ _ => Rejects 2 (VString "offline"))))
      (Rejects 10 (VString "boom"))
    = (Returned false, w')
    /\ Async.trace w'
       = [(0, Called "default" [example_payload; VObject example_metadata]);
          (10, ConsoleError
                 [VString ("Error in queue " +:+ JS.dquote +:+ "%s" +:+ JS.dquote +:+ " job %s:");
                  VString "screenshots"; VUndefined; VString "boom"]);
          (10, Called "onError" [JS.Error "boom"; VObject example_metadata]);
          (12, ConsoleError
                 [VString ("Error in onError handler for queue " +:+ JS.dquote +:+ "%s" +:+ JS.dquote);
                  VString "screenshots"; VString "offline"])].
Proof.
  apply (handleQueuedJob_failed_trace example_metadata
           (Queue.mkQueueMiddleware None None (Some (fun _ _ => Rejects 2 (VString "offline"))))
           (Queue.mkQueueExports (fun _ _ => Rejects 10 (VString "boom")))
           example_storage example_payload example_queues (Queue.mkQueueService 5)
           "screenshots" 30000 0 None None [] 0 10 VUndefined (VString "boom"));
    try reflexivity.
  intros hook [= <-] error md. discriminate.
Defined.

Section QueueDeadline.
Import Async Queue.

Variable metadata : Metadata.
Variable middleware : QueueMiddleware.
Variable module : QueueExports.
Variable newLocalStorage : LocalStorage.
Variable payload : Value.

(** An event that is not the start of a stage of the job after the
    deadline: a line on the console, a call of [onError], or a call
    made in the time between [start] and [deadline]. *)
Definition timely (start deadline : Z) (event : Z * Event) : Prop :=
  match event.2 with
  | ConsoleError _ => True
  | Called name _ => name = "onError" \/ (start <= event.1 < deadline)
  end.

Lemma runWithMiddleware_timely (t0 delay : Z) (st : option LocalStorage)
    (tr : list (Z * Event)) :
  0 < delay ->
  exists new,
    trace (runWithMiddleware metadata middleware module newLocalStorage payload
             (mkWorld t0 (Some (t0 + delay)) false st tr)).2 = tr ++ new
    /\ Forall (timely t0 (t0 + delay)) new.
Proof.
  intros Hdelay. unfold runWithMiddleware. run_async.
  unfold JS.nullish, advance, forever. cbn.
  destruct (onJobStarted middleware) as [started|];
    [destruct (started metadata) as [d1 v1|d1 e1|]|]; cbn;
    repeat (leb_cases; cbn);
    destruct (default_ module payload metadata) as [d2 v2|d2 e2|]; cbn;
    repeat (leb_cases; cbn);
    (destruct (onJobFinished middleware) as [finished|];
     [destruct (finished metadata) as [d3 v3|d3 e3|]|]); cbn;
    repeat (leb_cases; cbn);
    rewrite <- ?app_assoc; cbn;
    (eexists; split; [try reflexivity; symmetry; apply app_nil_r|]);
    repeat (apply Forall_cons; split; [right; cbn; lia|]); apply Forall_nil_2.
Qed.

Lemma job_catch_timely (queueName : string) (error : Value) (start deadline : Z)
    (w : World) :
  exists new,
    trace (job_catch metadata middleware queueName error w).2 = trace w ++ new
    /\ Forall (timely start deadline) new.
Proof.
  unfold job_catch. run_async. destruct w as [t0 tm ab st tr].
  destruct (onError middleware) as [hook|]; cbn;
    [destruct (hook (JS.asError error) metadata) as [d v|d e|]; cbn|];
    unfold advance, forever; cbn; destruct tm; cbn; repeat (leb_cases; cbn);
    rewrite <- ?app_assoc; cbn;
    (eexists; split; [reflexivity|]);
    repeat (apply Forall_cons; split; [first [exact I|by left]|]); apply Forall_nil_2.
Qed.

Lemma job_try_trace (timeout : Z) (w : World) :
  trace (job_try metadata middleware module newLocalStorage payload timeout w).2
  = trace (runWithMiddleware metadata middleware module newLocalStorage payload w).2.
Proof.
  unfold job_try, mbind, Async_bind, race_abort, signal_aborted, throw, mret, Async_ret.
  destruct (runWithMiddleware metadata middleware module newLocalStorage payload w)
    as [[[]|e|] w1]; destruct (timer w); cbn;
    repeat match goal with |- context [if ?b then _ else _] => destruct b; cbn end;
    reflexivity.
Qed.

Lemma finally_trace {A} (body : Async A) (w : World) :
  trace (try_finally body (clearTimeout ;; abort) w).2 = trace (body w).2.
Proof. unfold try_finally. by destruct (body w) as [[a|e|] w1]. Qed.

(** X19. No stage of a job starts once the timer has fired: every call
    that [handleQueuedJob] makes, [onError] apart, is made before the
    deadline. When the timer fires during [onJobStarted] the handler
    is not invoked, and when it fires during the handler
    [onJobFinished] is not. *)
Theorem handleQueuedJob_no_late_start (queues : gmap string QueueService)
    (queue : QueueService) (queueName : string) (remainingTime : Z)
    (t0 : Z) (tm : option Z) (st : option LocalStorage) (tr : list (Z * Event)) :
  queues !! queueName = Some queue ->
  0 < Z.min (timeout queue * 1000) remainingTime ->
  let deadline := t0 + timer_delay (Z.min (timeout queue * 1000) remainingTime * 1000) in
  exists new,
    trace (handleQueuedJob queues (Some (module, middleware)) metadata newLocalStorage
             payload queueName remainingTime (mkWorld t0 tm false st tr)).2
    = tr ++ new
    /\ forall time name args,
         (time, Called name args) ∈ new ->
         name = "onError" \/ (t0 <= time < deadline).
Proof.
  intros Hqueue Hbudget deadline. subst deadline.
  unfold handleQueuedJob. rewrite Hqueue.
  destruct (Z.leb_spec (Z.min (timeout queue * 1000) remainingTime) 0); [lia|].
  rewrite setTimeout_then, finally_trace. cbn [now timer aborted store trace].
  set (budget := Z.min (timeout queue * 1000) remainingTime).
  set (w0 := mkWorld t0 (Some (t0 + timer_delay (budget * 1000))) false st tr).
  destruct (runWithMiddleware_timely t0 (timer_delay (budget * 1000)) st tr
              (timer_delay_pos _)) as (new1 & Htrace1 & Htimely1).
  fold w0 in Htrace1. rewrite <- (job_try_trace budget) in Htrace1.
  assert (exists new,
    trace (try_catch (job_try metadata middleware module newLocalStorage payload budget)
             (job_catch metadata middleware queueName) w0).2 = tr ++ new
    /\ Forall (timely t0 (t0 + timer_delay (budget * 1000))) new) as (new & Htrace & Htimely).
  { unfold try_catch.
    destruct (job_try metadata middleware module newLocalStorage payload budget w0)
      as [[completed|error|] w1]; cbn [snd] in Htrace1; [by exists new1| |by exists new1].
    destruct (job_catch_timely queueName error t0 (t0 + timer_delay (budget * 1000)) w1)
      as (new2 & Htrace2 & Htimely2).
    exists (new1 ++ new2). rewrite Htrace2, Htrace1, app_assoc. split; [done|].
    by apply Forall_app. }
  exists new. split; [exact Htrace|].
  intros time name args Hin. rewrite Forall_forall in Htimely.
  exact (Htimely _ Hin).
Qed.

End QueueDeadline.

Lemma handleQueuedJob_no_late_start_witness :
  example_queues !! "screenshots" = Some (Queue.mkQueueService 5)
  /\ exists new,
       Async.trace
         (example_job
            (Queue.mkQueueMiddleware None (Some (fun _ => Resolves 1 VUndefined)) None)
            (Resolves 6000000 VUndefined)).2
       = new
       /\ forall time name args,
            (time, Called name args) ∈ new ->
            name = "onError" \/ (0 <= time < 5000000).
Proof.
  split; [reflexivity|].
  apply (handleQueuedJob_no_late_start example_metadata
           (Queue.mkQueueMiddleware None (Some (fun _ => Resolves 1 VUndefined)) None)
           (Queue.mkQueueExports (fun _ _ => Resolves 6000000 VUndefined))
           example_storage example_payload example_queues (Queue.mkQueueService 5)
           "screenshots" 30000 0 None None [] eq_refl eq_refl).
Defined.

(** ** Hot reloading of a function *)

Section HotReload.
Import Builder.

Variable resolve : string -> string.
Variable stack : Value -> Value.
Variable filename : string.

(** The exports that a load verifies. *)
Definition verified (exports : FunctionExports) : Prop :=
  JS.typeof (handler exports) = "function" /\ JS.typeof (config exports) = "object".

(** What a load gives when it succeeds. *)
Definition reloaded (loadModule : string -> Loaded) : option FunctionExports :=
  match (loadAndVerify resolve loadModule filename ∅).1 with
  | Ok exports => Some exports
  | Throw _ => None
  end.

Lemma loadAndVerify_paths (loadModule : string -> Loaded) (paths1 paths2 : gset string) :
  loadAndVerify resolve loadModule filename paths1
  = loadAndVerify resolve loadModule filename paths2.
Proof. reflexivity. Qed.

Lemma loadAndVerify_verified (loadModule : string -> Loaded) (paths : gset string)
    (exports : FunctionExports) :
  (loadAndVerify resolve loadModule filename paths).1 = Ok exports -> verified exports.
Proof.
  unfold loadAndVerify, verified.
  destruct (loadModule (resolve filename)) as [exports' cache|error cache]; [|done].
  destruct (String.eqb_spec (JS.typeof (JS.or_else (get exports' "handler") (get exports' "default")))
              "function") as [Hhandler|]; [|done].
  destruct (String.eqb_spec (JS.typeof (JS.or_else (get exports' "config") (VObject [])))
              "object") as [Hconfig|]; [|done].
  cbn. by intros [= <-].
Qed.

(** The watcher after the [change] events of [events], one loader per
    event. *)
Definition after_changes (watcher : Watcher) (events : list (string -> Loaded)) : Watcher :=
  fold_left (on_change resolve stack filename) events watcher.

Lemma on_change_loaded (watcher : Watcher) (loadModule : string -> Loaded) :
  loaded (on_change resolve stack filename watcher loadModule)
  = default (loaded watcher) (reloaded loadModule)
  /\ watched watcher ⊆ watched (on_change resolve stack filename watcher loadModule)
  /\ paths (on_change resolve stack filename watcher loadModule)
     ⊆ watched (on_change resolve stack filename watcher loadModule)
  /\ List.length (errors (on_change resolve stack filename watcher loadModule))
     = (List.length (errors watcher)
        + match reloaded loadModule with Some _ => 0 | None => 1 end)%nat.
Proof.
  unfold on_change, reloaded.
  rewrite (loadAndVerify_paths loadModule (paths watcher) ∅).
  destruct (loadAndVerify resolve loadModule filename ∅) as [[exports|error] paths'];
    cbn; rewrite ?length_app; cbn; split_and!; first [set_solver|lia].
Qed.

Lemma after_changes_spec (watcher : Watcher) (events : list (string -> Loaded)) :
  verified (loaded watcher) -> paths watcher ⊆ watched watcher ->
  let final := after_changes watcher events in
  verified (loaded final)
  /\ loaded final = default (loaded watcher) (last (omap reloaded events))
  /\ watched watcher ⊆ watched final
  /\ paths final ⊆ watched final
  /\ (List.length (errors final) + List.length (omap reloaded events)
      = List.length (errors watcher) + List.length events)%nat.
Proof.
  revert watcher. induction events as [|lm events IH]; intros watcher Hverified Hpaths.
  - cbn. split_and!; [done..|lia].
  - unfold after_changes in *. cbn [fold_left].
    destruct (on_change_loaded watcher lm) as (Hloaded & Hwatched & Hpaths' & Herrors).
    assert (verified (loaded (on_change resolve stack filename watcher lm))) as Hverified'.
    { rewrite Hloaded. unfold reloaded.
      destruct (loadAndVerify resolve lm filename ∅).1 as [exports|error] eqn:Hl; [|done].
      by apply (loadAndVerify_verified lm ∅). }
    destruct (IH _ Hverified' Hpaths') as (IH1 & IH2 & IH3 & IH4 & IH5).
    split_and!; [done| |set_solver|done|].
    + rewrite IH2, Hloaded. cbn [omap list_omap].
      destruct (reloaded lm) as [exports|]; [|done].
      cbn. by destruct (omap reloaded events) as [|? ?] using rev_ind;
        [|rewrite app_comm_cons, !last_snoc].
    + rewrite Herrors in IH5. cbn [omap list_omap].
      destruct (reloaded lm); cbn [List.length]; lia.
Qed.

(** X16. Hot reloading keeps the last version that verifies. After any
    sequence of [change] events, the object [loaded] holds the exports
    of the last reload that verified, or those of the first load when
    none did; they are verified exports in every case. A reload that
    fails writes one line on the console and changes nothing else.
    Every file that a load went through is watched from then on. *)
Theorem loadFunction_hot_reload (loadModule : string -> Loaded) (watcher : Watcher)
    (events : list (string -> Loaded)) :
  loadFunction resolve loadModule filename true = Ok watcher ->
  let final := after_changes watcher events in
  verified (loaded final)
  /\ loaded final = default (loaded watcher) (last (omap reloaded events))
  /\ watched watcher ⊆ watched final
  /\ paths final ⊆ watched final
  /\ (List.length (errors final) + List.length (omap reloaded events)
      = List.length events)%nat.
Proof.
  intros Hload.
  assert (verified (loaded watcher) /\ paths watcher ⊆ watched watcher
          /\ errors watcher = []) as (Hverified & Hpaths & Herrors).
  { unfold loadFunction in Hload.
    destruct (loadAndVerify resolve loadModule filename ∅) as [[exports|error] paths'] eqn:Hl;
      [|done].
    injection Hload as <-. cbn. split_and!; [|done..].
    apply (loadAndVerify_verified loadModule ∅). by rewrite Hl. }
  pose proof (after_changes_spec watcher events Hverified Hpaths) as Hspec.
  by rewrite Herrors in Hspec.
Qed.

End HotReload.

(** A module that no longer parses. *)
Definition broken_module (filename : string) : Builder.Loaded :=
  Builder.LoadThrew (VError "SyntaxError" "Unexpected token") ["/app/api/index.js"].

Lemma loadFunction_hot_reload_witness :
  exists watcher,
    Builder.loadFunction id
      (fun _ => Builder.LoadedExports module_with_default ["/app/api/index.js"])
      "api/index.js" true = Ok watcher
    /\ verified (Builder.loaded (after_changes id id "api/index.js" watcher [broken_module]))
    /\ Builder.loaded (after_changes id id "api/index.js" watcher [broken_module])
       = Builder.loaded watcher.
Proof.
  eexists. split; [reflexivity|].
  destruct (loadFunction_hot_reload id id "api/index.js"
              (fun _ => Builder.LoadedExports module_with_default ["/app/api/index.js"])
              _ [broken_module] eq_refl) as (Hverified & Hloaded & _).
  split; [exact Hverified|exact Hloaded].
Defined.

(** ** Queue jobs on the development server *)

Section QueueJobSpec.
Import Async DevServer.

Variable JSON_parse : string -> Result Value.
Variable randomUUID : string.
Variable date : Value.
Variable queues : gmap string Queue.QueueService.
Variable modules : string -> option (Queue.QueueExports * Queue.QueueMiddleware).

(** The name of the queue in the URL of a request. *)
Definition queue_of (req : IncomingMessage) : option string :=
  drop 2 (split_slash (url req)) !! 0%nat.

(** X17. What the development server answers to a request on a queue
    URL. A method other than POST gets 405, and nothing runs. A POST
    for a queue of the project gets 200 whenever the job settles, also
    when the job failed or timed out: the outcome of the job is not in
    the answer. A POST for a queue that is not in the manifest, or has
    no module, gets 500, with the error on the console. A POST without
    a queue name is not answered at all: the invariant throws before
    the [try] block. *)
Theorem queueJob_status (req : IncomingMessage) (newLocalStorage : LocalStorage)
    (t0 : Z) (tm : option Z) (st : option LocalStorage) (tr : list (Z * Event)) :
  let w := mkWorld t0 tm false st tr in
  let reply := queueJob JSON_parse randomUUID date queues modules req newLocalStorage w in
  (method req <> "POST" ->
   reply = (Returned (mkServerResponse 405 "Method not allowed"), w))
  /\ (forall queueName queue module middleware,
        method req = "POST" -> queue_of req = Some queueName -> queueName <> "" ->
        queues !! queueName = Some queue ->
        modules queueName = Some (module, middleware) ->
        onError_settles middleware ->
        exists w', reply = (Returned (mkServerResponse 200 "OK"), w'))
  /\ (forall queueName,
        method req = "POST" -> queue_of req = Some queueName -> queueName <> "" ->
        queues !! queueName = None \/ modules queueName = None ->
        exists error,
          reply = (Returned (mkServerResponse 500 "Internal Server Error"),
                   mkWorld t0 tm false st
                     (tr ++ [(t0, ConsoleError [VString "💥 Queue job failed!"; error])])))
  /\ (method req = "POST" -> queue_of req = Some "" \/ queue_of req = None ->
      reply = (Thrown (JS.Error "Invariant failed: Queue name is required"), w)).
Proof.
  intros w reply. subst reply. unfold queueJob. fold (queue_of req).
  split_and!.
  - intros Hmethod. by destruct (String.eqb_spec (method req) "POST").
  - intros queueName queue module middleware -> -> Hname Hqueue Hmodule Hsettles. cbn.
    destruct (String.eqb_spec queueName ""); [done|].
    rewrite Hmodule.
    match goal with
    | |- context [Queue.handleQueuedJob _ _ ?metadata _ ?payload _ _] =>
        destruct (handleQueuedJob_cases metadata middleware module newLocalStorage payload
                    queues queue queueName 30000 t0 tm st tr Hqueue Hsettles)
          as (completed & w' & Hrun & _)
    end.
    unfold try_catch, mbind, Async_bind. fold w in Hrun. rewrite Hrun. by eexists.
  - intros queueName -> -> Hname Hmissing. cbn.
    destruct (String.eqb_spec queueName ""); [done|].
    unfold Queue.handleQueuedJob, try_catch, mbind, Async_bind.
    destruct (queues !! queueName) as [queue|]; [|by eexists].
    destruct Hmissing as [?|Hnone]; [done|]. rewrite Hnone. by eexists.
  - intros -> [->| ->]; reflexivity.
Qed.

End QueueJobSpec.

Lemma queueJob_status_witness :
  exists w',
    DevServer.queueJob unused_parser "4b7a" (VString "2022-02-01T10:00:00.000Z")
      example_queues
      (fun _ => Some (Queue.mkQueueExports (fun _ _ => Rejects 10 (JS.Error "boom")), no_hooks))
      (DevServer.mkIncomingMessage "POST" "/$queues/screenshots" ["{}"])
      example_storage Async.initial
    = (Returned (DevServer.mkServerResponse 200 "OK"), w').
Proof.
  destruct (queueJob_status unused_parser "4b7a" (VString "2022-02-01T10:00:00.000Z")
              example_queues
              (fun _ => Some (Queue.mkQueueExports (fun _ _ => Rejects 10 (JS.Error "boom")),
                              no_hooks))
              (DevServer.mkIncomingMessage "POST" "/$queues/screenshots" ["{}"])
              example_storage 0 None None []) as (_ & Hok & _).
  apply (Hok "screenshots" (Queue.mkQueueService 5)
           (Queue.mkQueueExports (fun _ _ => Rejects 10 (JS.Error "boom"))) no_hooks);
    try reflexivity; discriminate.
Defined.

